(** * Smart City agent: the tool-calling orchestration loop

    A shallow embedding of [client/client.py] ([call_tool], [run_agent], the
    command-line loop), of [server/server.py] (the [/ask] entry point, the
    route table and the tool endpoints) and of the four tool functions of
    [server/tools].

    Python values that cross the HTTP and model boundaries are JSON values;
    dictionaries keep Python's insertion order and are association lists
    with unique keys.  Code that may raise is written in a small
    state-and-exception monad; the state is the log of external calls made
    so far together with the attribute [run_agent.last_tool_output].

    A Python string is carried by its UTF-8 encoding.  [py_split] and
    [py_strip] are [str.split()] and [str.strip()], with the whitespace
    characters of Unicode.  [py_lower] lowers the ASCII letters and leaves
    the bytes above 127 as they are: it is [str.lower] on ASCII strings,
    and the properties that name the target language read from a query are
    stated for ASCII queries.  A part of a model response is modelled as
    the client library hands it over: the attribute [function_call] is
    there on every part, and the arguments of a part that holds text are
    [None]. *)

From Stdlib Require Import String Ascii List ZArith Bool Lia.
Import ListNotations.
Local Open Scope string_scope.
Local Open Scope list_scope.

(** ** Strings *)

Module PyStr.

(** ASCII upper-case letters are moved to lower case, as [str.lower]. *)
Definition lower_ascii (c : ascii) : ascii :=
  let n := nat_of_ascii c in
  if andb (Nat.leb 65 n) (Nat.leb n 90) then ascii_of_nat (n + 32) else c.

Fixpoint py_lower (s : string) : string :=
  match s with
  | EmptyString => EmptyString
  | String c r => String (lower_ascii c) (py_lower r)
  end.

(** The ASCII characters for which [str.isspace] holds:
    TAB, LF, VT, FF, CR, FS, GS, RS, US and space. *)
Definition is_space (c : ascii) : bool :=
  let n := nat_of_ascii c in
  orb (andb (Nat.leb 9 n) (Nat.leb n 13)) (andb (Nat.leb 28 n) (Nat.leb n 32)).

Definition is_empty (s : string) : bool :=
  match s with EmptyString => true | _ => false end.

Definition byte_is (c : ascii) (n : nat) : bool := Nat.eqb (nat_of_ascii c) n.

Definition byte_in (c : ascii) (lo hi : nat) : bool :=
  andb (Nat.leb lo (nat_of_ascii c)) (Nat.leb (nat_of_ascii c) hi).

(** The number of bytes of the whitespace character that [s] starts with,
    [0] when it starts with none.  The whitespace characters are those of
    [str.isspace]: the ASCII ones and, in UTF-8, U+0085 (C2 85),
    U+00A0 (C2 A0), U+1680 (E1 9A 80), U+2000 to U+200A (E2 80 80 to
    E2 80 8A), U+2028 and U+2029 (E2 80 A8, E2 80 A9), U+202F (E2 80 AF),
    U+205F (E2 81 9F) and U+3000 (E3 80 80). *)
Definition ws_len (s : string) : nat :=
  match s with
  | EmptyString => 0
  | String c r =>
      if is_space c then 1
      else if byte_is c 194 then
        match r with
        | String d _ => if orb (byte_is d 133) (byte_is d 160) then 2 else 0
        | EmptyString => 0
        end
      else if byte_is c 225 then
        match r with
        | String d (String e _) =>
            if andb (byte_is d 154) (byte_is e 128) then 3 else 0
        | _ => 0
        end
      else if byte_is c 226 then
        match r with
        | String d (String e _) =>
            if orb (andb (byte_is d 128)
                      (orb (byte_in e 128 138)
                         (orb (byte_in e 168 169) (byte_is e 175))))
                   (andb (byte_is d 129) (byte_is e 159))
            then 3 else 0
        | _ => 0
        end
      else if byte_is c 227 then
        match r with
        | String d (String e _) =>
            if andb (byte_is d 128) (byte_is e 128) then 3 else 0
        | _ => 0
        end
      else 0
  end.
Arguments ws_len : simpl never.

(** [str.split()] with no argument: runs of whitespace separate the
    tokens and no empty token is produced.  [cur] is the token being read;
    [skip] counts the bytes still to pass of the whitespace character
    being read. *)
Fixpoint split_from (skip : nat) (cur : string) (s : string) : list string :=
  match s with
  | EmptyString => if is_empty cur then [] else [cur]
  | String c r =>
      match skip with
      | S k => split_from k cur r
      | O =>
          match ws_len s with
          | O => split_from 0 (cur ++ String c EmptyString) r
          | S k =>
              if is_empty cur then split_from k EmptyString r
              else cur :: split_from k EmptyString r
          end
      end
  end.

Definition py_split (s : string) : list string := split_from 0 EmptyString s.

Fixpoint lstrip_from (skip : nat) (s : string) : string :=
  match s with
  | EmptyString => EmptyString
  | String c r =>
      match skip with
      | S k => lstrip_from k r
      | O =>
          match ws_len s with
          | O => s
          | S k => lstrip_from k r
          end
      end
  end.

Definition lstrip (s : string) : string := lstrip_from 0 s.

(** [s], read after [skip] bytes, is made of whitespace characters only. *)
Fixpoint all_space_from (skip : nat) (s : string) : bool :=
  match s with
  | EmptyString => Nat.eqb skip 0
  | String c r =>
      match skip with
      | S k => all_space_from k r
      | O =>
          match ws_len s with
          | O => false
          | S k => all_space_from k r
          end
      end
  end.

Fixpoint rstrip (s : string) : string :=
  match s with
  | EmptyString => EmptyString
  | String c r =>
      if all_space_from 0 s then EmptyString else String c (rstrip r)
  end.

(** [str.strip()] *)
Definition py_strip (s : string) : string := rstrip (lstrip s).

(** [sub in s] on strings: [sub] occurs in [s] as a contiguous substring. *)
Fixpoint contains (sub s : string) : bool :=
  orb (String.prefix sub s)
      (match s with
       | EmptyString => false
       | String _ r => contains sub r
       end).

(** No whitespace character starts anywhere in [s]. *)
Fixpoint no_space (s : string) : Prop :=
  match s with
  | EmptyString => True
  | String c r => ws_len s = 0 /\ no_space r
  end.


(** The first [n] characters, each as a one-character string: what a
    [for] loop over the slice [s[:n]] of a string visits. *)
Fixpoint first_chars (n : nat) (s : string) : list string :=
  match n, s with
  | S m, String c r => String c EmptyString :: first_chars m r
  | _, _ => []
  end.

End PyStr.
Import PyStr.

(** ** JSON values and dictionaries *)

(** A float is never computed with; it is carried by its textual form. *)
#[warnings="-register-all"]
Inductive json : Type :=
| JNull
| JBool (b : bool)
| JInt (z : Z)
| JFloat (repr : string)
| JStr (s : string)
| JArr (l : list json)
| JObj (d : list (string * json)).

Definition dict : Type := list (string * json).

Fixpoint dict_get (k : string) (d : dict) : option json :=
  match d with
  | [] => None
  | (k', v) :: r => if String.eqb k k' then Some v else dict_get k r
  end.

(** [k in d] *)
Definition dict_has (k : string) (d : dict) : bool :=
  match dict_get k d with Some _ => true | None => false end.

(** [d[k] = v]: an existing key keeps its position, a new key goes last. *)
Fixpoint dict_set (k : string) (v : json) (d : dict) : dict :=
  match d with
  | [] => [(k, v)]
  | (k', v') :: r =>
      if String.eqb k k' then (k', v) :: r else (k', v') :: dict_set k v r
  end.

(** Truth value of a dictionary: [if d:] *)
Definition dict_truthy (d : dict) : bool :=
  match d with [] => false | _ => true end.

Definition is_JStr (s : string) (v : json) : bool :=
  match v with JStr s' => String.eqb s s' | _ => false end.

(** ** Exceptions, and the state-and-exception monad *)

(** What a failing operation of the interpreter was, without committing to
    the text Python prints for it. *)
Inductive fault : Type :=
| NotContainer (v : json)                    (* ["error" in v], [dict(v)] *)
| NotSubscriptable (v : json)                (* [v["k"]] or [v[:3]] *)
| MissingKey (k : string)                    (* [d["k"]], key absent *)
| NoAttribute (v : json) (attr : string)     (* [v.get], [v.strip] *)
| NoCandidate.                               (* [candidates[0]], empty list *)

Inductive exn : Type :=
| ExternalError (msg : string)   (* raised inside a library; [str(e) = msg] *)
| RuntimeFault (f : fault).

Inductive outcome (A : Type) : Type :=
| Ret (a : A)
| Raise (e : exn).
Arguments Ret {A} a.
Arguments Raise {A} e.

(** The calls that leave the process, in the order they are made. *)
Inductive event : Type :=
| EvGenerate (query : string)             (* [model.generate_content(query)] *)
| EvPost (url : string) (body : json).    (* [requests.post(url, json=body)] *)

Definition trace : Type := list event.

(** [last_tool_output] is the attribute [run_agent.last_tool_output];
    [None] while it has never been assigned. *)
Record state : Type := mkState {
  calls : trace;
  last_tool_output : option dict
}.

Definition M (A : Type) : Type := state -> outcome A * state.

Definition ret {A} (a : A) : M A := fun s => (Ret a, s).
Definition raise {A} (e : exn) : M A := fun s => (Raise e, s).
Definition lift {A} (o : outcome A) : M A := fun s => (o, s).

Definition bind {A B} (m : M A) (k : A -> M B) : M B :=
  fun s =>
    match m s with
    | (Ret a, s') => k a s'
    | (Raise e, s') => (Raise e, s')
    end.

(** [try: m  except Exception as e: h e] *)
Definition try_except {A} (m : M A) (h : exn -> M A) : M A :=
  fun s =>
    match m s with
    | (Ret a, s') => (Ret a, s')
    | (Raise e, s') => h e s'
    end.

Declare Scope py_scope.
Delimit Scope py_scope with py.
Notation "x <- m ;; k" := (bind m (fun x => k))
  (at level 61, m at next level, right associativity) : py_scope.
Notation "m ;;; k" := (bind m (fun _ => k))
  (at level 61, right associativity) : py_scope.
Local Open Scope py_scope.

Definition log (e : event) : M unit :=
  fun s => (Ret tt, mkState (calls s ++ [e]) (last_tool_output s)).

Definition set_last_tool_output (d : dict) : M unit :=
  fun s => (Ret tt, mkState (calls s) (Some d)).

(** ** The world outside the process *)

(** One entry of [function_declarations] in [TOOLS]. *)
Record ToolSpec : Type := mkTool {
  name : string;
  description : string;
  properties : list (string * string);
  required : list string
}.

Definition TOOLS : list ToolSpec :=
  [ mkTool "geocode_location" "Get coordinates for a place."
      [("location", "string")] ["location"];
    mkTool "get_weather" "Fetch weather for a location."
      [("location", "string")] ["location"];
    mkTool "search_places" "Search for businesses at a location."
      [("query", "string"); ("location", "string")] ["query"; "location"];
    mkTool "translate_text" "Translate text into another language."
      [("text", "string"); ("target_lang", "string")] ["text"; "target_lang"] ].

(** A tool invocation: a name and an argument mapping. *)
Record fcall : Type := mkCall {
  fc_name : string;
  fc_args : dict
}.

(** The object [part.function_call]: [fn.name], and [fn.args], which is
    [None] when the call carries no argument mapping. *)
Record function_call_msg : Type := mkFn {
  fn_name : string;
  fn_args : option dict
}.

(** A part of the model's answer; [function_call] is [None] when the part
    has no such attribute ([hasattr(part, "function_call")] is false).
    The parts that [google.generativeai] delivers always have the
    attribute: see [text_part]. *)
Record part : Type := mkPart {
  function_call : option function_call_msg
}.

(** A part that holds text, as [google.generativeai] delivers it: its
    [function_call] is the empty call, with the name [""] and with [args]
    equal to [None]. *)
Definition text_part : part := mkPart (Some (mkFn EmptyString None)).

(** A part that proposes the call of [name] with the arguments [args]. *)
Definition call_part (name : string) (args : dict) : part :=
  mkPart (Some (mkFn name (Some args))).

(** The object returned by [generate_content]: [candidates] lists, for each
    candidate, its [content.parts]; [text] is what reading [.text] gives. *)
Record model_response : Type := mkResponse {
  candidates : list (list part);
  text : outcome string
}.

(** What [requests.post] returns: reading [.json()] gives a value or raises. *)
Record http_response : Type := mkHttp {
  json_body : outcome json
}.

(** The model provider and the HTTP peer.  Their answers may depend on
    everything the process has sent so far. *)
Record World : Type := mkWorld {
  MCP_SERVER_URL : string;
  generate_content : trace -> list ToolSpec -> string -> outcome model_response;
  requests_post : trace -> string -> json -> outcome http_response
}.

(** Functions of the Python runtime that are used as given. *)
Record PyLib : Type := mkLib {
  py_repr : json -> string;        (* [str(v)] for a [v] that is not a string *)
  json_dumps : json -> string;     (* [json.dumps(v, indent=2)] *)
  fault_text : fault -> string     (* [str(e)] for an interpreter exception *)
}.

Definition str_exn (lib : PyLib) (e : exn) : string :=
  match e with
  | ExternalError msg => msg
  | RuntimeFault f => fault_text lib f
  end.

(** [str(v)], as an f-string formats [v]. *)
Definition py_str (lib : PyLib) (v : json) : string :=
  match v with
  | JStr s => s
  | _ => py_repr lib v
  end.

(** ** Operations of the interpreter on JSON values *)

(** ["error" in v] *)
Definition py_in (k : string) (v : json) : outcome bool :=
  match v with
  | JObj d => Ret (dict_has k d)
  | JArr l => Ret (existsb (is_JStr k) l)
  | JStr s => Ret (contains k s)
  | _ => Raise (RuntimeFault (NotContainer v))
  end.

(** [v[k]] for a string key [k] *)
Definition py_getitem (v : json) (k : string) : outcome json :=
  match v with
  | JObj d =>
      match dict_get k d with
      | Some x => Ret x
      | None => Raise (RuntimeFault (MissingKey k))
      end
  | _ => Raise (RuntimeFault (NotSubscriptable v))
  end.

(** [v.get(k, default)] *)
Definition py_get (v : json) (k : string) (default : json) : outcome json :=
  match v with
  | JObj d =>
      match dict_get k d with
      | Some x => Ret x
      | None => Ret default
      end
  | _ => Raise (RuntimeFault (NoAttribute v "get"))
  end.

(** The items a loop over [v[:3]] visits. *)
Definition py_first3 (v : json) : outcome (list json) :=
  match v with
  | JArr l => Ret (firstn 3 l)
  | JStr s => Ret (map JStr (first_chars 3 s))
  | _ => Raise (RuntimeFault (NotSubscriptable v))
  end.

(** [v.strip()] *)
Definition py_strip_method (v : json) : outcome string :=
  match v with
  | JStr s => Ret (py_strip s)
  | _ => Raise (RuntimeFault (NoAttribute v "strip"))
  end.

(** A list comprehension [[f x for x in l]]: left to right, the first
    exception ends it. *)
Fixpoint comprehension {A B} (f : A -> outcome B) (l : list A)
  : outcome (list B) :=
  match l with
  | [] => Ret []
  | x :: r =>
      match f x with
      | Raise e => Raise e
      | Ret y =>
          match comprehension f r with
          | Raise e => Raise e
          | Ret ys => Ret (y :: ys)
          end
      end
  end.

(** ** [client/client.py] *)

Definition tool_url (w : World) (tool_name : string) : string :=
  (MCP_SERVER_URL w ++ "/tool/" ++ tool_name)%string.

(** [requests.post(url, json=arguments)]: the call is logged, then the
    peer answers or the library raises. *)
Definition do_post (w : World) (url : string) (arguments : json)
  : M http_response :=
  fun s =>
    (requests_post w (calls s) url arguments,
     mkState (calls s ++ [EvPost url arguments]) (last_tool_output s)).

(** [model.generate_content(user_query)], the model built with [TOOLS]. *)
Definition do_generate (w : World) (user_query : string) : M model_response :=
  fun s =>
    (generate_content w (calls s) TOOLS user_query,
     mkState (calls s ++ [EvGenerate user_query]) (last_tool_output s)).

Definition error_dict (msg : string) : json := JObj [("error", JStr msg)].

(** [call_tool(tool_name, arguments)] *)
Definition call_tool (w : World) (lib : PyLib)
    (tool_name : string) (arguments : json) : M json :=
  try_except
    (response <- do_post w (tool_url w tool_name) arguments ;;
     lift (json_body response))
    (fun e => ret (error_dict (str_exn lib e))).

Definition sorry_prefix : string := "I am sorry, something went wrong → ".

Definition fallback_message : string :=
  "Sorry — I could not summarize the results.".

(** [response.candidates[0].content.parts] *)
Definition first_parts (r : model_response) : outcome (list part) :=
  match candidates r with
  | ps :: _ => Ret ps
  | [] => Raise (RuntimeFault NoCandidate)
  end.

(** The loop over [parts].  [inl answer] is the early [return] inside the
    loop; [inr all_results] is the loop running to its end.  Building
    [args] is [dict(fn.args)], which raises when [fn.args] is [None]. *)
Fixpoint primary_loop (w : World) (lib : PyLib)
    (parts : list part) (all_results : dict) : M (string + dict) :=
  match parts with
  | [] => ret (inr all_results)
  | p :: rest =>
      match function_call p with
      | None => primary_loop w lib rest all_results
      | Some fn =>
          let tool_name := fn_name fn in
          match fn_args fn with
          | None => raise (RuntimeFault (NotContainer JNull))
          | Some fn_args =>
              let args := JObj fn_args in
              tool_output <- call_tool w lib tool_name args ;;
              failed <- lift (py_in "error" tool_output) ;;
              if (failed : bool)
              then
                msg <- lift (py_getitem tool_output "error") ;;
                ret (inl (sorry_prefix ++ py_str lib msg)%string)
              else
                primary_loop w lib rest
                  (dict_set tool_name tool_output all_results)
          end
      end
  end.

(** [l.index(x)]; [None] where Python raises. *)
Fixpoint index (x : string) (l : list string) : option nat :=
  match l with
  | [] => None
  | y :: r =>
      if String.eqb x y then Some 0
      else match index x r with Some i => Some (S i) | None => None end
  end.

(** The value of [target_lang] before the default is applied;
    [None] is Python's [None]. *)
Definition detect_target_lang (user_query : string) : option string :=
  let words := py_split (py_lower user_query) in
  if existsb (String.eqb "to") words then
    match index "to" words with
    | Some idx =>
        if Nat.ltb (idx + 1) (length words)
        then Some (py_strip (nth (idx + 1) words EmptyString))
        else None
    | None => None
    end
  else None.

(** [if not target_lang: target_lang = "hindi"] *)
Definition target_lang (user_query : string) : string :=
  match detect_target_lang user_query with
  | Some t => if is_empty t then "hindi" else t
  | None => "hindi"
  end.

Definition translate_payload (name : json) (target : string) : json :=
  JObj [("text", name); ("target_lang", JStr target)].

Definition translation_record (name translated : json) : json :=
  JObj [("original", name); ("translated", translated)].

(** The loop over [names_to_translate]; [translations] is the list built
    so far. *)
Fixpoint translate_loop (w : World) (lib : PyLib) (target : string)
    (names : list json) (translations : list json) : M (list json) :=
  match names with
  | [] => ret translations
  | name :: rest =>
      t_out <- call_tool w lib "translate_text" (translate_payload name target) ;;
      translated <- lift (py_get t_out "translated_text" (JStr "[error]")) ;;
      translate_loop w lib target rest
        (translations ++ [translation_record name translated])
  end.

(** The test of the [if] that guards the automatic translation. *)
Definition chain_trigger (user_query : string) (all_results : dict) : bool :=
  andb (dict_has "search_places" all_results)
       (contains "translate" (py_lower user_query)).

(** The body of that [if]: from [all_results] to [all_results] with the
    ["translations"] entry. *)
Definition chain (w : World) (lib : PyLib) (user_query : string)
    (all_results : dict) : M dict :=
  sp <- lift (py_getitem (JObj all_results) "search_places") ;;
  places <- lift (py_get sp "results" (JArr [])) ;;
  first3 <- lift (py_first3 places) ;;
  names_to_translate <- lift (comprehension (fun p => py_getitem p "name") first3) ;;
  let target := target_lang user_query in
  translations <- translate_loop w lib target names_to_translate [] ;;
  ret (dict_set "translations" (JArr translations) all_results).

(** What follows the loop over [parts]: the automatic translation, then
    the structured answer, or the plain-text fallback when no tool ran. *)
Definition respond (w : World) (lib : PyLib) (user_query : string)
    (all_results : dict) : M string :=
  all_results <-
    (if chain_trigger user_query all_results
     then chain w lib user_query all_results
     else ret all_results) ;;
  if dict_truthy all_results
  then
    set_last_tool_output all_results ;;;
    ret (json_dumps lib (JObj all_results))
  else
    try_except
      (final_response <- do_generate w user_query ;;
       lift (text final_response))
      (fun _ => ret fallback_message).

(** [run_agent(user_query)] *)
Definition run_agent (w : World) (lib : PyLib) (user_query : string)
  : M string :=
  response <- do_generate w user_query ;;
  parts <- lift (first_parts response) ;;
  r <- primary_loop w lib parts [] ;;
  match r with
  | inl answer => ret answer
  | inr all_results => respond w lib user_query all_results
  end.

(** ** [server/server.py] *)

(** The tool functions the routes are bound to. *)
Inductive tool_fn : Type :=
| geocode_location
| get_weather
| search_places
| translate_text.

(** The [@app.route("/tool/...", methods=["POST"])] table. *)
Definition tool_route (path : string) : option tool_fn :=
  if String.eqb path "/tool/geocode_location" then Some geocode_location
  else if String.eqb path "/tool/get_weather" then Some get_weather
  else if String.eqb path "/tool/search_places" then Some search_places
  else if String.eqb path "/tool/translate_text" then Some translate_text
  else None.

(** [ask()]: the JSON document and the status code of the reply.
    [request_json] is what reading [request.json] gives. *)
Definition ask (w : World) (lib : PyLib) (request_json : outcome json)
  : M (json * Z) :=
  try_except
    (body <- lift request_json ;;
     q <- lift (py_get body "question" (JStr EmptyString)) ;;
     question <- lift (py_strip_method q) ;;
     if is_empty question
     then ret (JObj [("error", JStr "Question cannot be empty")], 400%Z)
     else
       answer <- run_agent w lib question ;;
       ret (JObj [("answer", JStr answer)], 200%Z))
    (fun e => ret (error_dict (str_exn lib e), 500%Z)).

(** ** Notions used to state the properties *)

(** A token has no whitespace and is not empty. *)
Definition token (t : string) : Prop := no_space t /\ is_empty t = false.

(** No whitespace character starts inside [cur] when [cur] is followed by
    [s]. *)
Fixpoint clean (cur s : string) : Prop :=
  match cur with
  | EmptyString => True
  | String _ r => ws_len (cur ++ s)%string = 0 /\ clean r s
  end.



(** [i] is the position of the first [x] in [l]. *)
Definition first_occurrence (x : string) (l : list string) (i : nat) : Prop :=
  nth_error l i = Some x /\ forall j, j < i -> nth_error l j <> Some x.

(** The value [call_tool] hands back when the calls made so far are [tr]. *)
Definition tool_result (w : World) (lib : PyLib) (tr : trace)
    (tool_name : string) (arguments : json) : json :=
  match requests_post w tr (tool_url w tool_name) arguments with
  | Raise e => error_dict (str_exn lib e)
  | Ret response =>
      match json_body response with
      | Raise e => error_dict (str_exn lib e)
      | Ret v => v
      end
  end.

Definition post_event (w : World) (tool_name : string) (arguments : json)
  : event :=
  EvPost (tool_url w tool_name) arguments.

(** How the loop treats a part: it passes over a part without the
    attribute, it raises on a call without arguments, it runs a call with
    arguments. *)
Inductive part_kind : Type :=
| Skipped
| Broken
| Call (fn : fcall).

Definition kind (p : part) : part_kind :=
  match function_call p with
  | None => Skipped
  | Some fn =>
      match fn_args fn with
      | None => Broken
      | Some args => Call (mkCall (fn_name fn) args)
      end
  end.

(** The tool invocations the loop can come to: those the model proposed, in
    the order of the parts, up to the first call without arguments. *)
Fixpoint invocations (parts : list part) : list fcall :=
  match parts with
  | [] => []
  | p :: rest =>
      match kind p with
      | Call fn => fn :: invocations rest
      | Skipped => invocations rest
      | Broken => []
      end
  end.

(** The part is not a call without arguments. *)
Definition has_args (p : part) : bool :=
  match kind p with
  | Broken => false
  | _ => true
  end.

Definition invocation_event (w : World) (fn : fcall) : event :=
  post_event w (fc_name fn) (JObj (fc_args fn)).

(** What invocation [fn] returns when it runs after the calls [tr0] and
    after the invocations [before]. *)
Definition output_after (w : World) (lib : PyLib) (tr0 : trace)
    (before : list fcall) (fn : fcall) : json :=
  tool_result w lib (tr0 ++ map (invocation_event w) before)
    (fc_name fn) (JObj (fc_args fn)).

(** A [Failure] with message [msg]: a mapping whose ["error"] is [msg]. *)
Definition is_failure (v : json) (msg : string) : Prop :=
  exists d, v = JObj d /\ dict_get "error" d = Some (JStr msg).

Definition is_object (v : json) : Prop := exists d, v = JObj d.

(** Every answer to [tool_name] is a tool result: a mapping, be it a
    payload or a failure. *)
Definition answers_objects (w : World) (lib : PyLib) (tool_name : string)
  : Prop :=
  forall tr body, is_object (tool_result w lib tr tool_name body).

(** An entity of a places result with its name. *)
Definition named (entity name : json) : Prop :=
  exists d, entity = JObj d /\ dict_get "name" d = Some name.

Definition translate_event (w : World) (target : string) (name : json)
  : event :=
  post_event w "translate_text" (translate_payload name target).

(** The translated text of a successful answer, the sentinel otherwise. *)
Definition translated_or_sentinel (t_out : json) : json :=
  match t_out with
  | JObj d =>
      match dict_get "translated_text" d with
      | Some t => t
      | None => JStr "[error]"
      end
  | _ => JStr "[error]"
  end.

(** One record per name, in order: the name and what its own call gave,
    the calls being made one after the other starting from [tr]. *)
Fixpoint expected_translations (w : World) (lib : PyLib) (target : string)
    (tr : trace) (names : list json) : list json :=
  match names with
  | [] => []
  | n :: rest =>
      translation_record n
        (translated_or_sentinel
           (tool_result w lib tr "translate_text" (translate_payload n target)))
      :: expected_translations w lib target
           (tr ++ [translate_event w target n]) rest
  end.

(** The answers the translation loop reads, one call after the other
    starting from [tr], are all mappings. *)
Fixpoint answers_ok (w : World) (lib : PyLib) (target : string)
    (tr : trace) (names : list json) : Prop :=
  match names with
  | [] => True
  | n :: rest =>
      is_object
        (tool_result w lib tr "translate_text" (translate_payload n target)) /\
      answers_ok w lib target (tr ++ [translate_event w target n]) rest
  end.

(** The attribute after a computation that assigned it [written], or did
    not assign it, when it held [l] before. *)
Definition assigned (written : option dict) (l : option dict) : option dict :=
  match written with
  | Some d => Some d
  | None => l
  end.

(** [m] never reads the attribute: started with the calls [tr], its
    outcome, its calls and what it assigns are the same whatever the
    attribute held, and outcome and assignment satisfy [post]. *)
Definition blind {A} (m : M A) (post : outcome A -> option dict -> Prop)
  : Prop :=
  forall tr, exists r tr' written,
    post r written /\
    forall l, m (mkState tr l) = (r, mkState tr' (assigned written l)).

(** [m] neither reads nor assigns the attribute. *)
Definition untouched {A} (m : M A) : Prop :=
  blind m (fun _ written => written = None).

(** What [run_agent] assigns, when it assigns, is the mapping it answers
    with, and that mapping is not empty. *)
Definition answer_kept (lib : PyLib) (r : outcome string)
    (written : option dict) : Prop :=
  forall d, written = Some d ->
            r = Ret (json_dumps lib (JObj d)) /\ dict_truthy d = true.

(** ** A deployment used for the concrete runs *)

Module Demo.

Definition base : string := "http://127.0.0.1:8080".

(** The text of the exception [response.json()] raises on a page that is
    not JSON. *)
Definition decode_error : string := "Expecting value: line 1 column 1 (char 0)".

Fixpoint drop_prefix (p s : string) : option string :=
  match p with
  | EmptyString => Some s
  | String c p' =>
      match s with
      | String d s' => if Ascii.eqb c d then drop_prefix p' s' else None
      | EmptyString => None
      end
  end.

Definition place (n : string) (rating : string) : json :=
  JObj [("name", JStr n); ("rating", JFloat rating)].

(** Stand-ins for the four tool functions. *)
Definition tools (f : tool_fn) (data : json) : json :=
  match f with
  | geocode_location =>
      JObj [("display_name", JStr "Portland"); ("lat", JStr "45.5");
            ("lon", JStr "-122.6")]
  | get_weather => error_dict "Location not found"
  | search_places =>
      JObj [("results",
             JArr [place "Case Study Coffee" "4.5"; place "Heart Coffee" "4.4";
                   place "Stumptown" "4.3"; place "Coava" "4.6"])]
  | translate_text =>
      match data with
      | JObj d =>
          if is_JStr "Heart Coffee"
               (match dict_get "text" d with Some v => v | None => JNull end)
          then error_dict "quota exceeded"
          else JObj [("translated_text", JStr "anuvad")]
      | _ => error_dict "Both 'text' and 'target_lang' are required"
      end
  end.

(** The Flask application of [server.py] behind [base]: a routed path is
    answered with the tool's result as JSON, any other path with the 404
    page, which is not JSON. *)
Definition flask_app (tr : trace) (url : string) (body : json)
  : outcome http_response :=
  match drop_prefix base url with
  | Some path =>
      match tool_route path with
      | Some f => Ret (mkHttp (Ret (tools f body)))
      | None => Ret (mkHttp (Raise (ExternalError decode_error)))
      end
  | None => Raise (ExternalError "Connection refused")
  end.

Definition is_generate (e : event) : bool :=
  match e with EvGenerate _ => true | _ => false end.

(** A model that proposes a places search for coffee; a geocoding, a
    weather lookup and a places search for weather; plain text otherwise;
    asked a second time within one run it is out of quota. *)
Definition model (tr : trace) (tools : list ToolSpec) (q : string)
  : outcome model_response :=
  if existsb is_generate tr then Raise (ExternalError "429 quota exceeded")
  else if contains "coffee" (py_lower q) then
    Ret (mkResponse
           [[call_part "search_places"
               [("query", JStr "coffee"); ("location", JStr "PSU")]]]
           (Raise (ExternalError "no text part")))
  else if contains "weather" (py_lower q) then
    Ret (mkResponse
           [[call_part "geocode_location" [("location", JStr "Atlantis")];
             call_part "get_weather" [("location", JStr "Atlantis")];
             call_part "search_places"
               [("query", JStr "coffee"); ("location", JStr "Atlantis")]]]
           (Raise (ExternalError "no text part")))
  else
    Ret (mkResponse [[text_part]] (Ret "Hello!")).

Definition world : World := mkWorld base model flask_app.


Definition lib : PyLib :=
  mkLib (fun _ => "<repr>") (fun _ => "<json>") (fun _ => "<fault>").

(** A fresh process: nothing sent, the attribute never assigned. *)
Definition fresh : state := mkState [] None.

Definition coffee_query : string :=
  "find coffee shops near PSU and translate to hindi".



(** The results mapping once the places search of [coffee_query] has run. *)
Definition found : dict := [("search_places", tools search_places JNull)].

Definition found_places : list json :=
  [place "Case Study Coffee" "4.5"; place "Heart Coffee" "4.4";
   place "Stumptown" "4.3"; place "Coava" "4.6"].

Definition found_names : list json :=
  [JStr "Case Study Coffee"; JStr "Heart Coffee"; JStr "Stumptown"].

(** The state after the model call and the places search. *)
Definition searched : state :=
  mkState
    [EvGenerate coffee_query;
     EvPost "http://127.0.0.1:8080/tool/search_places"
       (JObj [("query", JStr "coffee"); ("location", JStr "PSU")])]
    None.

End Demo.

(** ** More operations of the interpreter *)

(** Truth value of a JSON value: [if v:].  A float is carried by Python's
    [repr] of it and is zero when that is [0.0] or [-0.0]. *)
Definition py_truthy (v : json) : bool :=
  match v with
  | JNull => false
  | JBool b => b
  | JInt z => negb (Z.eqb z 0)
  | JFloat r => negb (orb (String.eqb r "0.0") (String.eqb r "-0.0"))
  | JStr s => negb (is_empty s)
  | JArr l => match l with [] => false | _ => true end
  | JObj d => dict_truthy d
  end.

(** The characters of a string, each as a one-character string. *)
Fixpoint chars (s : string) : list string :=
  match s with
  | EmptyString => []
  | String c r => String c EmptyString :: chars r
  end.

(** The items a [for] loop over [v] visits: the elements of a list, the
    keys of a mapping, the characters of a string. *)
Definition py_iter (v : json) : outcome (list json) :=
  match v with
  | JArr l => Ret l
  | JObj d => Ret (map (fun kv => JStr (fst kv)) d)
  | JStr s => Ret (map JStr (chars s))
  | _ => Raise (RuntimeFault (NotContainer v))
  end.

(** [v[0]].  The keys of a parsed mapping are strings, so a mapping has no
    key [0]. *)
Definition py_index0 (v : json) : outcome json :=
  match v with
  | JArr (x :: _) => Ret x
  | JStr (String c _) => Ret (JStr (String c EmptyString))
  | JObj _ => Raise (RuntimeFault (MissingKey "0"))
  | _ => Raise (RuntimeFault (NotSubscriptable v))
  end.

Fixpoint as_strings (l : list json) : option (list string) :=
  match l with
  | [] => Some []
  | JStr s :: r =>
      match as_strings r with
      | Some ss => Some (s :: ss)
      | None => None
      end
  | _ :: _ => None
  end.

(** [sep.join(v)]: [v] must be iterable and its items strings; otherwise
    the fault is reported on [v]. *)
Definition py_join (sep : string) (v : json) : outcome string :=
  match py_iter v with
  | Raise e => Raise e
  | Ret items =>
      match as_strings items with
      | Some ss => Ret (String.concat sep ss)
      | None => Raise (RuntimeFault (NotContainer v))
      end
  end.

(** ** [server/tools]: the four tool functions *)

Module Tools.

(** What the server process sends out. *)
Inductive request : Type :=
| Get (url : string) (headers : list (string * string))
      (params : list (string * json))
| Generate (model_name : string) (prompt : string).

(** What [requests.get] returns: [raise_for_status()] passes or raises,
    [.json()] gives a value or raises. *)
Record reply : Type := mkReply {
  raise_for_status : outcome unit;
  reply_json : outcome json
}.

(** The services behind the tools and the two keys read from the
    environment ([None] when the variable is not set). *)
Record Services : Type := mkServices {
  requests_get : list request -> string -> list (string * string) ->
                 list (string * json) -> outcome reply;
  gemini : list request -> string -> string -> outcome model_response;
  YELP_API_KEY : option string;
  OPENWEATHER_API_KEY : option string
}.

(** A tool runs with the log of the requests sent so far and may raise. *)
Definition T (A : Type) : Type := list request -> outcome A * list request.

Definition tret {A} (a : A) : T A := fun h => (Ret a, h).
Definition tlift {A} (o : outcome A) : T A := fun h => (o, h).

Definition tbind {A B} (m : T A) (k : A -> T B) : T B :=
  fun h =>
    match m h with
    | (Ret a, h') => k a h'
    | (Raise e, h') => (Raise e, h')
    end.

Definition ttry {A} (m : T A) (handler : exn -> T A) : T A :=
  fun h =>
    match m h with
    | (Ret a, h') => (Ret a, h')
    | (Raise e, h') => handler e h'
    end.

Declare Scope tool_scope.
Notation "x <- m ;; k" := (tbind m (fun x => k))
  (at level 61, m at next level, right associativity) : tool_scope.
Notation "m ;;; k" := (tbind m (fun _ => k))
  (at level 61, right associativity) : tool_scope.
Local Open Scope tool_scope.

Definition do_get (svc : Services) (url : string)
    (headers : list (string * string)) (params : list (string * json))
  : T reply :=
  fun h => (requests_get svc h url headers params,
            h ++ [Get url headers params]).

Definition do_gemini (svc : Services) (model_name prompt : string)
  : T model_response :=
  fun h => (gemini svc h model_name prompt, h ++ [Generate model_name prompt]).

(** [os.environ.get(...)] as a value: [None] or the string. *)
Definition env_json (v : option string) : json :=
  match v with
  | Some s => JStr s
  | None => JNull
  end.

Definition env_truthy (v : option string) : bool :=
  match v with
  | Some s => negb (is_empty s)
  | None => false
  end.

Definition env_str (v : option string) : string :=
  match v with
  | Some s => s
  | None => "None"
  end.

(** [d.get(k)] of a mapping: the value, or [None]. *)
Definition get_or_none (k : string) (d : dict) : json :=
  match dict_get k d with
  | Some v => v
  | None => JNull
  end.

(** *** [geocode.py] *)

Definition nominatim_url (lib : PyLib) (query : json) : string :=
  ("https://nominatim.openstreetmap.org/search?" ++
   "q=" ++ py_str lib query ++ "&format=json&limit=1")%string.

Definition geocode_location (svc : Services) (lib : PyLib) (data : json)
  : T json :=
  let query :=
    match data with
    | JObj d => get_or_none "location" d
    | _ => data
    end in
  if negb (py_truthy query) then tret (error_dict "Missing location")
  else
    response <- do_get svc (nominatim_url lib query)
                  [("User-Agent", "SmartCityAgent")] [] ;;
    match reply_json response with
    | Raise _ => tret (error_dict "Invalid JSON returned by geocoding API")
    | Ret results =>
        if negb (py_truthy results) then tret (error_dict "Location not found")
        else
          result <- tlift (py_index0 results) ;;
          display_name <- tlift (py_get result "display_name" JNull) ;;
          lat <- tlift (py_get result "lat" JNull) ;;
          lon <- tlift (py_get result "lon" JNull) ;;
          tret (JObj [("display_name", display_name);
                      ("lat", lat); ("lon", lon)])
    end.

(** *** [get_weather.py] *)

Definition OPENWEATHER_URL : string :=
  "https://api.openweathermap.org/data/2.5/weather".

Definition get_weather (svc : Services) (lib : PyLib) (data : json) : T json :=
  location <- tlift (py_get data "location" JNull) ;;
  if negb (py_truthy location)
  then tret (error_dict "Missing required field: 'location'")
  else
    coords <- geocode_location svc lib (JObj [("location", location)]) ;;
    failed <- tlift (py_in "error" coords) ;;
    if (failed : bool) then tret coords
    else
      lat <- tlift (py_getitem coords "lat") ;;
      lon <- tlift (py_getitem coords "lon") ;;
      let params :=
        [("lat", lat); ("lon", lon);
         ("appid", env_json (OPENWEATHER_API_KEY svc));
         ("units", JStr "metric")] in
      ttry
        (response <- do_get svc OPENWEATHER_URL [] params ;;
         tlift (raise_for_status response) ;;;
         w <- tlift (reply_json response) ;;
         main <- tlift (py_getitem w "main") ;;
         temp <- tlift (py_getitem main "temp") ;;
         weather <- tlift (py_getitem w "weather") ;;
         first <- tlift (py_index0 weather) ;;
         descr <- tlift (py_getitem first "description") ;;
         main' <- tlift (py_getitem w "main") ;;
         humidity <- tlift (py_getitem main' "humidity") ;;
         wind <- tlift (py_getitem w "wind") ;;
         speed <- tlift (py_getitem wind "speed") ;;
         tret (JObj [("location", location); ("temperature_c", temp);
                     ("weather", descr); ("humidity", humidity);
                     ("wind_speed", speed)]))
        (fun e => tret (error_dict (str_exn lib e))).

(** *** [search_places.py] *)

Definition YELP_URL : string := "https://api.yelp.com/v3/businesses/search".

(** The mapping appended to [cleaned] for one business. *)
Definition clean_business (business : json) : outcome json :=
  match py_getitem business "name" with
  | Raise e => Raise e
  | Ret n =>
  match py_getitem business "rating" with
  | Raise e => Raise e
  | Ret rating =>
  match py_getitem business "location" with
  | Raise e => Raise e
  | Ret location =>
  match py_getitem location "display_address" with
  | Raise e => Raise e
  | Ret display_address =>
  match py_join " " display_address with
  | Raise e => Raise e
  | Ret address =>
  match py_get business "display_phone" JNull with
  | Raise e => Raise e
  | Ret phone =>
  match py_getitem business "url" with
  | Raise e => Raise e
  | Ret url =>
      Ret (JObj [("name", n); ("rating", rating); ("address", JStr address);
                 ("phone", phone); ("url", url)])
  end end end end end end end.

Definition search_places (svc : Services) (lib : PyLib) (data : json)
  : T json :=
  query <- tlift (py_get data "query" JNull) ;;
  location <- tlift (py_get data "location" JNull) ;;
  if orb (negb (py_truthy query)) (negb (py_truthy location))
  then tret (error_dict "Both 'query' and 'location' are required")
  else if negb (env_truthy (YELP_API_KEY svc))
  then tret (error_dict "YELP_API_KEY not found in environment variables")
  else
    coords <- geocode_location svc lib (JObj [("location", location)]) ;;
    failed <- tlift (py_in "error" coords) ;;
    if (failed : bool) then tret coords
    else
      lat <- tlift (py_getitem coords "lat") ;;
      lon <- tlift (py_getitem coords "lon") ;;
      let headers :=
        [("Authorization", ("Bearer " ++ env_str (YELP_API_KEY svc))%string)] in
      let params :=
        [("term", query); ("latitude", lat); ("longitude", lon);
         ("limit", JInt 5)] in
      ttry
        (response <- do_get svc YELP_URL headers params ;;
         tlift (raise_for_status response) ;;;
         results <- tlift (reply_json response) ;;
         businesses <- tlift (py_get results "businesses" (JArr [])) ;;
         items <- tlift (py_iter businesses) ;;
         cleaned <- tlift (comprehension clean_business items) ;;
         tret (JObj [("results", JArr cleaned)]))
        (fun e => tret (error_dict (str_exn lib e))).

(** *** [translate_text.py] *)

Definition newline : string := String (ascii_of_nat 10) EmptyString.

Definition translation_prompt (lib : PyLib) (text' target : json) : string :=
  ("Translate the following text into '" ++ py_str lib target ++ "'. " ++
   "Return ONLY the translated text. " ++
   "Do NOT explain. Do NOT provide alternatives." ++ newline ++ newline ++
   py_str lib text')%string.

Definition translate_text (svc : Services) (lib : PyLib) (data : json)
  : T json :=
  text' <- tlift (py_get data "text" JNull) ;;
  target <- tlift (py_get data "target_lang" JNull) ;;
  if orb (negb (py_truthy text')) (negb (py_truthy target))
  then tret (error_dict "Both 'text' and 'target_lang' are required")
  else
    ttry
      (response <- do_gemini svc "gemini-2.0-flash"
                     (translation_prompt lib text' target) ;;
       t <- tlift (text response) ;;
       tret (JObj [("translated_text", JStr (py_strip t))]))
      (fun e => tret (error_dict (str_exn lib e))).

End Tools.

(** ** [server/server.py]: the tool endpoints *)

(** [jsonify] writes the keys of every mapping in sorted order, which for
    UTF-8 encoded keys is the order of their bytes. *)
Fixpoint insert_key (k : string) (v : json) (d : dict) : dict :=
  match d with
  | [] => [(k, v)]
  | (k', v') :: rest =>
      if String.leb k' k then (k', v') :: insert_key k v rest
      else (k, v) :: d
  end.

Fixpoint sort_keys (v : json) : json :=
  match v with
  | JArr items => JArr (map sort_keys items)
  | JObj d =>
      JObj ((fix sort_items (d : dict) : dict :=
               match d with
               | [] => []
               | (k, x) :: rest => insert_key k (sort_keys x) (sort_items rest)
               end) d)
  | _ => v
  end.

Definition jsonify (v : json) : json := sort_keys v.

(** [request.json] for a body posted with [requests.post(url, json=body)]:
    [json=None] posts no document, and reading one raises. *)
Definition posted_json (body : json) : outcome json :=
  match body with
  | JNull => Raise (ExternalError "415 Unsupported Media Type")
  | _ => Ret body
  end.

(** Each endpoint is [jsonify(tool(request.json))]. *)
Definition tool_geocode (svc : Tools.Services) (lib : PyLib)
    (request_json : outcome json) : Tools.T json :=
  Tools.tbind (Tools.tbind (Tools.tlift request_json)
                 (Tools.geocode_location svc lib))
    (fun v => Tools.tret (jsonify v)).

Definition tool_weather (svc : Tools.Services) (lib : PyLib)
    (request_json : outcome json) : Tools.T json :=
  Tools.tbind (Tools.tbind (Tools.tlift request_json)
                 (Tools.get_weather svc lib))
    (fun v => Tools.tret (jsonify v)).

Definition tool_places (svc : Tools.Services) (lib : PyLib)
    (request_json : outcome json) : Tools.T json :=
  Tools.tbind (Tools.tbind (Tools.tlift request_json)
                 (Tools.search_places svc lib))
    (fun v => Tools.tret (jsonify v)).

Definition tool_translate (svc : Tools.Services) (lib : PyLib)
    (request_json : outcome json) : Tools.T json :=
  Tools.tbind (Tools.tbind (Tools.tlift request_json)
                 (Tools.translate_text svc lib))
    (fun v => Tools.tret (jsonify v)).

(** The view function a routed tool path is bound to. *)
Definition endpoint (svc : Tools.Services) (lib : PyLib) (f : tool_fn)
  : outcome json -> Tools.T json :=
  match f with
  | geocode_location => tool_geocode svc lib
  | get_weather => tool_weather svc lib
  | search_places => tool_places svc lib
  | translate_text => tool_translate svc lib
  end.

(** [health()] *)
Definition health : json := JObj [("status", JStr "ok")].

(** ** The agent in front of its own server *)

(** A tool name made of ASCII letters, digits and underscores.  The URL
    [call_tool] builds for such a name is the server's address followed by
    the path ["/tool/" ++ tool_name] as it stands: nothing in it reads as a
    query, a fragment or an escape. *)
Definition plain_char (c : ascii) : bool :=
  orb (orb (byte_in c 48 57) (byte_in c 65 90))
      (orb (byte_in c 97 122) (byte_is c 95)).

Fixpoint plain_name (s : string) : bool :=
  match s with
  | EmptyString => true
  | String c r => andb (plain_char c) (plain_name r)
  end.

(** The server of [server.py] listening at the address [base].  A POST to a
    routed tool path runs the view function on the posted document and is
    answered with the document [jsonify] makes of its result; when the view
    function raises, or the path is not routed, the answer is an error
    page, and reading it as JSON raises [not_json].  [history tr] is what
    the server has sent out when the POST arrives. *)
Definition served (svc : Tools.Services) (lib : PyLib) (base : string)
    (not_json : exn) (history : trace -> list Tools.request)
    (tr : trace) (url : string) (body : json) : outcome http_response :=
  match Demo.drop_prefix base url with
  | Some path =>
      match tool_route path with
      | Some f =>
          match fst (endpoint svc lib f (posted_json body) (history tr)) with
          | Ret v => Ret (mkHttp (Ret v))
          | Raise _ => Ret (mkHttp (Raise not_json))
          end
      | None => Ret (mkHttp (Raise not_json))
      end
  | None => Raise (ExternalError "Connection refused")
  end.

Definition deployment (svc : Tools.Services) (lib : PyLib) (base : string)
    (not_json : exn) (history : trace -> list Tools.request)
    (model : trace -> list ToolSpec -> string -> outcome model_response)
  : World :=
  mkWorld base model (served svc lib base not_json history).

(** An entity as [search_places] builds it. *)
Definition cleaned_entity (c : json) : Prop :=
  exists n rating address phone url,
    c = JObj [("name", n); ("rating", rating); ("address", JStr address);
              ("phone", phone); ("url", url)].

(** A places payload as [search_places] builds it. *)
Definition places_payload (v : json) : Prop :=
  exists cleaned,
    v = JObj [("results", JArr cleaned)] /\ Forall cleaned_entity cleaned.

(** An entity of [search_places] as the client receives it, its keys in
    the order [jsonify] writes them. *)
Definition received_entity (c : json) : Prop :=
  exists n rating address phone url,
    c = JObj [("address", JStr address); ("name", n); ("phone", phone);
              ("rating", rating); ("url", url)].

(** A places answer the chaining can read: ["results"] is absent or a list,
    and the entries the chaining looks at are mappings with a ["name"],
    their keys in any order. *)
Definition readable_places (d : dict) : Prop :=
  exists places names,
    match dict_get "results" d with
    | Some v => v = JArr places
    | None => places = []
    end /\
    Forall2 named (firstn 3 places) names.

(** The peer keeps the tool interface: every answer is a mapping, and an
    answer to [search_places] that is not a failure is a readable places
    answer. *)
Definition keeps_interface (w : World) (lib : PyLib) : Prop :=
  (forall tr tool_name body, is_object (tool_result w lib tr tool_name body)) /\
  (forall tr body d,
      tool_result w lib tr "search_places" body = JObj d ->
      dict_get "error" d = None ->
      readable_places d).

(** ** The results of a run in which every invocation succeeds *)

(** The mapping the loop builds from [acc] when the invocations [fns] run
    after the calls [tr]. *)
Fixpoint stored (w : World) (lib : PyLib) (tr : trace) (fns : list fcall)
    (acc : dict) : dict :=
  match fns with
  | [] => acc
  | fn :: rest =>
      stored w lib (tr ++ [invocation_event w fn]) rest
        (dict_set (fc_name fn) (output_after w lib tr [] fn) acc)
  end.

(** ** [client.py], run as a program *)

Inductive cli_end : Type :=
| Quit                 (* the [break] *)
| EndOfInput           (* [input] found no more lines *)
| Crashed (e : exn).   (* [run_agent] raised *)

(** [q.lower() in ["quit", "exit"]] *)
Definition is_stop (q : string) : bool :=
  existsb (String.eqb (py_lower q)) ["quit"; "exit"].

(** The [while True] loop over the lines typed in: the answers printed, in
    order, how the loop ended, and the final state. *)
Fixpoint cli_loop (w : World) (lib : PyLib) (inputs : list string)
    (s : state) : list string * cli_end * state :=
  match inputs with
  | [] => ([], EndOfInput, s)
  | q :: rest =>
      if is_stop q then ([], Quit, s)
      else
        match run_agent w lib q s with
        | (Ret answer, s') =>
            let '(printed, e, s'') := cli_loop w lib rest s' in
            (answer :: printed, e, s'')
        | (Raise e, s') => ([], Crashed e, s')
        end
  end.

(** ** Services used for the concrete runs *)

Module DemoTools.

Definition portland : json :=
  JObj [("display_name", JStr "Portland, Oregon"); ("lat", JStr "45.52");
        ("lon", JStr "-122.67"); ("importance", JFloat "0.7")].

Definition weather_doc : json :=
  JObj [("main", JObj [("temp", JFloat "10.5"); ("humidity", JInt 93)]);
        ("weather", JArr [JObj [("description", JStr "broken clouds")]]);
        ("wind", JObj [("speed", JFloat "2.5")])].

Definition business (n : string) : json :=
  JObj [("name", JStr n); ("rating", JFloat "4.5");
        ("location",
         JObj [("display_address", JArr [JStr "1 Main St"; JStr "Portland"])]);
        ("url", JStr "https://yelp.example/biz")].

Definition ok (v : json) : outcome Tools.reply :=
  Ret (Tools.mkReply (Ret tt) (Ret v)).

(** Nominatim knows Portland and nothing else; the weather and business
    services answer every request. *)
Definition get (h : list Tools.request) (url : string)
    (headers : list (string * string)) (params : list (string * json))
  : outcome Tools.reply :=
  if contains "nominatim" url then
    if contains "q=Portland" url then ok (JArr [portland]) else ok (JArr [])
  else if contains "openweathermap" url then ok weather_doc
  else ok (JObj [("businesses", JArr [business "Case Study Coffee";
                                      business "Heart Coffee"])]).

Definition translator (h : list Tools.request) (model_name prompt : string)
  : outcome model_response :=
  Ret (mkResponse [] (Ret "  hola ")).

Definition services : Tools.Services :=
  Tools.mkServices get translator (Some "yelp-key") (Some "weather-key").

(** The same services with no Yelp key in the environment. *)
Definition keyless : Tools.Services :=
  Tools.mkServices get translator None (Some "weather-key").

(** The same services while Nominatim turns every request down with an
    error document. *)
Definition throttled : Tools.Services :=
  Tools.mkServices
    (fun _ _ _ _ => ok (JObj [("error", JStr "Rate limit exceeded")]))
    translator (Some "yelp-key") (Some "weather-key").

Definition lib : PyLib :=
  mkLib (fun _ => "<repr>") (fun _ => "<json>") (fun _ => "<fault>").

(** The agent of [Demo] in front of the server of [server.py] with these
    services. *)
Definition own_server : World :=
  deployment services lib Demo.base (ExternalError Demo.decode_error)
    (fun _ => []) Demo.model.

End DemoTools.

(** ** Notions used to state the properties of the tools *)

(** A successful result of [geocode_location]. *)
Definition geocoded (v : json) : Prop :=
  exists display_name lat lon,
    v = JObj [("display_name", display_name); ("lat", lat); ("lon", lon)].

(** The one request [geocode_location] sends for [query]. *)
Definition nominatim_request (lib : PyLib) (query : json) : Tools.request :=
  Tools.Get (Tools.nominatim_url lib query)
    [("User-Agent", "SmartCityAgent")] [].

(** A successful result of [get_weather] for [location]. *)
Definition weather_report (location v : json) : Prop :=
  exists temp descr humidity speed,
    v = JObj [("location", location); ("temperature_c", temp);
              ("weather", descr); ("humidity", humidity);
              ("wind_speed", speed)].

(** A result of [translate_text] that carries a translation. *)
Definition translation (v : json) : Prop :=
  exists t, v = JObj [("translated_text", JStr (py_strip t))].

Definition failure (v : json) : Prop := exists msg, v = error_dict msg.

(** The request [get_weather] sends for geocoded coordinates. *)
Definition weather_request (svc : Tools.Services) (lat lon : json)
  : Tools.request :=
  Tools.Get Tools.OPENWEATHER_URL []
    [("lat", lat); ("lon", lon);
     ("appid", Tools.env_json (Tools.OPENWEATHER_API_KEY svc));
     ("units", JStr "metric")].

(** The request [search_places] sends for a term and coordinates. *)
Definition yelp_request (svc : Tools.Services) (query lat lon : json)
  : Tools.request :=
  Tools.Get Tools.YELP_URL
    [("Authorization",
      ("Bearer " ++ Tools.env_str (Tools.YELP_API_KEY svc))%string)]
    [("term", query); ("latitude", lat); ("longitude", lon);
     ("limit", JInt 5)].

(** The argument [get_weather] and [search_places] hand to
    [geocode_location]. *)
Definition location_arg (location : json) : json :=
  JObj [("location", location)].

(** The request [translate_text] sends. *)
Definition translate_request (lib : PyLib) (text' target : json)
  : Tools.request :=
  Tools.Generate "gemini-2.0-flash" (Tools.translation_prompt lib text' target).

(** A peer that answers every POST with the JSON document [null]. *)
Module Odd.

Definition world : World :=
  mkWorld Demo.base Demo.model (fun _ _ _ => Ret (mkHttp (Ret JNull))).

(** A results mapping whose second entity has no name. *)
Definition nameless : dict :=
  [("search_places",
    JObj [("results",
           JArr [Demo.place "Case Study Coffee" "4.5";
                 JObj [("rating", JFloat "4.4")];
                 Demo.place "Stumptown" "4.3"])])].

End Odd.

(** The places entry of a results mapping, when there is one, is a readable
    places answer. *)
Definition places_inv (all_results : dict) : Prop :=
  forall v, dict_get "search_places" all_results = Some v ->
    exists d, v = JObj d /\ readable_places d.

(** * Properties *)

(** ** Tokens of [py_split] *)

Lemma append_assoc (a b c : string) : ((a ++ b) ++ c = a ++ (b ++ c))%string.
Proof. induction a as [|x a IH]; simpl; [reflexivity | rewrite IH; reflexivity]. Qed.

(** A whitespace character found at the head of [u] is found at the head
    of [u] followed by anything. *)
Lemma ws_len_app_zero (u s : string) :
  ws_len (u ++ s)%string = 0 -> ws_len u = 0.
Proof.
  destruct u as [|c [|d [|e u]]]; unfold ws_len; cbn [append]; intros H;
    try reflexivity;
    repeat match goal with
           | |- context [if ?b then _ else _] => destruct b
           | H : context [if ?b then _ else _] |- _ => destruct b
           | H : context [match ?r with EmptyString => _ | String _ _ => _ end]
             |- _ => destruct r
           end;
    first [reflexivity | discriminate | assumption].
Qed.

Lemma clean_snoc (cur : string) (c : ascii) (r : string) :
  clean cur (String c r) -> ws_len (String c r) = 0 ->
  clean (cur ++ String c EmptyString)%string r.
Proof.
  induction cur as [|a cur IH]; intros Hc Hw.
  - simpl. split; [exact Hw | exact I].
  - cbn [append clean] in *. destruct Hc as [Ha Hrest]. split.
    + rewrite append_assoc. exact Ha.
    + apply IH; assumption.
Qed.

Lemma clean_no_space (cur s : string) : clean cur s -> no_space cur.
Proof.
  induction cur as [|a cur IH]; intros H; [exact I|].
  cbn [clean no_space] in *. destruct H as [Ha Hrest]. split.
  - exact (ws_len_app_zero (String a cur) s Ha).
  - exact (IH Hrest).
Qed.

Lemma split_from_tokens (s : string) :
  forall skip cur,
    (skip = 0 /\ clean cur s) \/ cur = EmptyString ->
    Forall token (split_from skip cur s).
Proof.
  induction s as [|c r IH]; intros skip cur H; simpl.
  - destruct (is_empty cur) eqn:E; constructor; [|constructor].
    split; [|exact E].
    destruct H as [[_ H] | ->]; [exact (clean_no_space _ _ H) | exact I].
  - destruct skip as [|k].
    + assert (Hclean : clean cur (String c r)).
      { destruct H as [[_ H] | ->]; [exact H | exact I]. }
      destruct (ws_len (String c r)) as [|k] eqn:Hw.
      * apply IH. left. split; [reflexivity|].
        apply clean_snoc; assumption.
      * destruct (is_empty cur) eqn:E.
        -- apply IH. right. reflexivity.
        -- constructor.
           ++ split; [exact (clean_no_space _ _ Hclean) | exact E].
           ++ apply IH. right. reflexivity.
    + apply IH. right. destruct H as [[Hk _] | H]; [discriminate | exact H].
Qed.

Lemma py_split_tokens (s : string) : Forall token (py_split s).
Proof. apply split_from_tokens. right. reflexivity. Qed.

Lemma rstrip_no_space (t : string) : no_space t -> rstrip t = t.
Proof.
  induction t as [|c r IH]; intros H; [reflexivity|].
  destruct H as [Hc Hr]. unfold rstrip; fold rstrip.
  unfold all_space_from; fold all_space_from. rewrite Hc.
  rewrite (IH Hr). reflexivity.
Qed.

Lemma lstrip_no_space (t : string) : no_space t -> lstrip t = t.
Proof.
  destruct t as [|c r]; intros H; [reflexivity|].
  destruct H as [Hc _]. unfold lstrip, lstrip_from; fold lstrip_from.
  rewrite Hc. reflexivity.
Qed.

Lemma py_strip_token (t : string) : token t -> py_strip t = t.
Proof.
  intros [H _]. unfold py_strip.
  rewrite (lstrip_no_space t H). apply rstrip_no_space. exact H.
Qed.

(** ** [list.index] finds the first occurrence *)

Lemma index_first (x : string) (l : list string) :
  forall i, index x l = Some i -> first_occurrence x l i.
Proof.
  induction l as [|y r IH]; simpl; intros i H; [discriminate|].
  destruct (String.eqb x y) eqn:E.
  - injection H as <-. apply String.eqb_eq in E. subst y.
    split; [reflexivity | intros j Hj; lia].
  - destruct (index x r) as [k|] eqn:Ek; [|discriminate].
    injection H as <-. destruct (IH k eq_refl) as [H1 H2].
    split; [exact H1|].
    intros [|j] Hj; simpl.
    + intros Heq. injection Heq as ->. rewrite String.eqb_refl in E. discriminate.
    + apply H2. lia.
Qed.



Lemma first_occurrence_In (x : string) (l : list string) (i : nat) :
  first_occurrence x l i -> In x l.
Proof. intros [H _]. exact (nth_error_In l i H). Qed.

Lemma existsb_eqb_In (x : string) (l : list string) :
  existsb (String.eqb x) l = true <-> In x l.
Proof.
  rewrite existsb_exists. split.
  - intros [y [Hin E]]. apply String.eqb_eq in E. subst y. exact Hin.
  - intros H. exists x. split; [exact H | apply String.eqb_refl].
Qed.

(** ** Target-language extraction *)

Lemma target_lang_index (q : string) :
  target_lang q =
  match index "to" (py_split (py_lower q)) with
  | Some i =>
      match nth_error (py_split (py_lower q)) (i + 1) with
      | Some t => t
      | None => "hindi"
      end
  | None => "hindi"
  end.
Proof.
  unfold target_lang, detect_target_lang.
  set (words := py_split (py_lower q)).
  assert (Htok : Forall token words) by apply py_split_tokens.
  destruct (index "to" words) as [i|] eqn:Ei.
  - assert (Hin : existsb (String.eqb "to") words = true).
    { apply existsb_eqb_In.
      exact (first_occurrence_In _ _ _ (index_first _ _ _ Ei)). }
    rewrite Hin.
    destruct (Nat.ltb (i + 1) (length words)) eqn:Hlt.
    + apply Nat.ltb_lt in Hlt.
      destruct (nth_error words (i + 1)) as [t|] eqn:Et.
      * rewrite (nth_error_nth _ _ EmptyString Et).
        assert (Ht : token t).
        { rewrite Forall_forall in Htok. apply Htok.
          exact (nth_error_In _ _ Et). }
        rewrite (py_strip_token t Ht). destruct Ht as [_ Hne].
        rewrite Hne. reflexivity.
      * apply nth_error_None in Et. lia.
    + apply Nat.ltb_ge in Hlt.
      assert (Et : nth_error words (i + 1) = None)
        by (apply nth_error_None; exact Hlt).
      rewrite Et. reflexivity.
  - destruct (existsb (String.eqb "to") words); reflexivity.
Qed.





(** ** The tool executor *)

Lemma call_tool_run (w : World) (lib : PyLib) (tool_name : string)
    (arguments : json) (s : state) :
  call_tool w lib tool_name arguments s =
  (Ret (tool_result w lib (calls s) tool_name arguments),
   mkState (calls s ++ [post_event w tool_name arguments]) (last_tool_output s)).
Proof.
  unfold call_tool, try_except, bind, do_post, lift, ret, tool_result, post_event.
  destruct (requests_post w (calls s) (tool_url w tool_name) arguments)
    as [response | e]; [|reflexivity].
  destruct (json_body response); reflexivity.
Qed.

(** C7.  [call_tool] returns a value for every tool name, argument mapping
    and behaviour of the peer, and never raises: an exception of the
    transport, or of reading the answer as JSON, becomes the mapping
    [{"error": str(e)}]; an answer that is JSON is returned as it is.
    Exactly one POST is made. *)
Theorem call_tool_total :
  forall (w : World) (lib : PyLib) (tool_name : string) (arguments : json)
         (s : state),
    call_tool w lib tool_name arguments s =
    (Ret match requests_post w (calls s) (tool_url w tool_name) arguments with
         | Raise e => JObj [("error", JStr (str_exn lib e))]
         | Ret response =>
             match json_body response with
             | Raise e => JObj [("error", JStr (str_exn lib e))]
             | Ret v => v
             end
         end,
     mkState (calls s ++ [EvPost (tool_url w tool_name) arguments])
       (last_tool_output s)).
Proof.
  intros w lib tool_name arguments s.
  rewrite call_tool_run. reflexivity.
Qed.

(** C4, as the code has it.  [call_tool] consults no registry.  For a name
    outside [TOOLS] it still POSTs to [<base>/tool/<name>] and does not
    raise; when the answer to that POST is not JSON, the result is the
    failure whose message is the text of the decoding exception, whatever
    the name was. *)
Theorem call_tool_unknown_name :
  forall (w : World) (lib : PyLib) (tool_name : string) (arguments : json)
         (s : state) (response : http_response) (e : exn),
    ~ In tool_name (map name TOOLS) ->
    requests_post w (calls s) (tool_url w tool_name) arguments = Ret response ->
    json_body response = Raise e ->
    call_tool w lib tool_name arguments s =
    (Ret (error_dict (str_exn lib e)),
     mkState (calls s ++ [EvPost (tool_url w tool_name) arguments])
       (last_tool_output s)).
Proof.
  intros w lib tool_name arguments s response e _ Hpost Hjson.
  rewrite call_tool_run. unfold tool_result. rewrite Hpost, Hjson. reflexivity.
Qed.

Lemma call_tool_unknown_name_witness :
  call_tool Demo.world Demo.lib "get_stock" (JObj []) Demo.fresh =
  (Ret (error_dict Demo.decode_error),
   mkState [EvPost "http://127.0.0.1:8080/tool/get_stock" (JObj [])] None).
Proof.
  apply (call_tool_unknown_name Demo.world Demo.lib "get_stock" (JObj [])
           Demo.fresh (mkHttp (Raise (ExternalError Demo.decode_error)))
           (ExternalError Demo.decode_error)).
  - simpl. intros H.
    repeat (destruct H as [H | H]; [discriminate H|]). exact H.
  - reflexivity.
  - reflexivity.
Defined.

(** C4, as stated, fails: ["get_stock"] is in no registry, the Flask
    application answers its path with the 404 page, and the failure that
    comes back carries the decoding error, in which the name does not
    occur. *)
Lemma unknown_tool_message_lacks_name :
  ~ In "get_stock" (map name TOOLS) /\
  fst (call_tool Demo.world Demo.lib "get_stock" (JObj []) Demo.fresh) =
    Ret (error_dict "Expecting value: line 1 column 1 (char 0)") /\
  ~ (exists msg,
       fst (call_tool Demo.world Demo.lib "get_stock" (JObj []) Demo.fresh) =
         Ret (error_dict msg) /\
       contains "get_stock" msg = true).
Proof.
  split; [|split].
  - simpl. intros H.
    repeat (destruct H as [H | H]; [discriminate H|]). exact H.
  - reflexivity.
  - intros [msg [H Hc]]. vm_compute in H.
    injection H as <-. vm_compute in Hc. discriminate Hc.
Qed.

(** ** The loop over the proposed invocations *)

Lemma primary_loop_skip (w : World) (lib : PyLib) (p : part)
    (rest : list part) (acc : dict) :
  kind p = Skipped ->
  primary_loop w lib (p :: rest) acc = primary_loop w lib rest acc.
Proof.
  unfold kind. intros H. simpl.
  destruct (function_call p) as [fn|]; [|reflexivity].
  destruct (fn_args fn); discriminate H.
Qed.

Lemma primary_loop_broken (w : World) (lib : PyLib) (p : part)
    (rest : list part) (acc : dict) :
  kind p = Broken ->
  primary_loop w lib (p :: rest) acc = raise (RuntimeFault (NotContainer JNull)).
Proof.
  unfold kind. intros H. simpl.
  destruct (function_call p) as [fn|]; [|discriminate H].
  destruct (fn_args fn); [discriminate H | reflexivity].
Qed.

Lemma primary_loop_call (w : World) (lib : PyLib) (p : part) (fn : fcall)
    (rest : list part) (acc : dict) :
  kind p = Call fn ->
  primary_loop w lib (p :: rest) acc =
  bind (call_tool w lib (fc_name fn) (JObj (fc_args fn)))
    (fun tool_output =>
       bind (lift (py_in "error" tool_output))
         (fun failed : bool =>
            if failed
            then bind (lift (py_getitem tool_output "error"))
                   (fun msg => ret (inl (sorry_prefix ++ py_str lib msg)%string))
            else primary_loop w lib rest
                   (dict_set (fc_name fn) tool_output acc))).
Proof.
  unfold kind. intros H. simpl.
  destruct (function_call p) as [m|]; [|discriminate H].
  destruct (fn_args m); [|discriminate H].
  injection H as <-. reflexivity.
Qed.

(** A loop over parts none of which has the attribute does nothing. *)
Lemma primary_loop_no_calls (w : World) (lib : PyLib) (parts : list part) :
  Forall (fun p => kind p = Skipped) parts ->
  forall acc s, primary_loop w lib parts acc s = (Ret (inr acc), s).
Proof.
  induction 1 as [|p rest Hp _ IH]; intros acc s; [reflexivity|].
  rewrite (primary_loop_skip w lib p rest acc Hp). apply IH.
Qed.

(** One successful step: the output is stored and the loop goes on. *)
Lemma primary_loop_step_ok (w : World) (lib : PyLib) (p : part) (fn : fcall)
    (rest : list part) (acc : dict) (tr : trace) (l : option dict) :
  kind p = Call fn ->
  py_in "error" (output_after w lib tr [] fn) = Ret false ->
  primary_loop w lib (p :: rest) acc (mkState tr l) =
  primary_loop w lib rest
    (dict_set (fc_name fn) (output_after w lib tr [] fn) acc)
    (mkState (tr ++ [invocation_event w fn]) l).
Proof.
  intros Hp Hok. rewrite (primary_loop_call w lib p fn rest acc Hp).
  unfold bind at 1. rewrite call_tool_run. simpl calls. simpl last_tool_output.
  unfold output_after in Hok. simpl map in Hok. rewrite app_nil_r in Hok.
  unfold bind at 1, lift at 1. rewrite Hok.
  unfold output_after. simpl map. rewrite app_nil_r. reflexivity.
Qed.

(** One failing step: the loop, and the function, return at once. *)
Lemma primary_loop_step_fail (w : World) (lib : PyLib) (p : part) (fn : fcall)
    (rest : list part) (acc : dict) (tr : trace) (l : option dict)
    (msg : string) :
  kind p = Call fn ->
  is_failure (output_after w lib tr [] fn) msg ->
  primary_loop w lib (p :: rest) acc (mkState tr l) =
  (Ret (inl (sorry_prefix ++ msg)%string),
   mkState (tr ++ [invocation_event w fn]) l).
Proof.
  intros Hp [d [Hd Herr]]. rewrite (primary_loop_call w lib p fn rest acc Hp).
  unfold bind at 1. rewrite call_tool_run. simpl calls. simpl last_tool_output.
  unfold output_after in Hd. simpl map in Hd. rewrite app_nil_r in Hd.
  rewrite Hd. unfold bind, lift, ret. simpl. unfold dict_has.
  rewrite Herr. simpl. reflexivity.
Qed.

Lemma output_after_cons (w : World) (lib : PyLib) (tr : trace)
    (f : fcall) (before : list fcall) (fn : fcall) :
  output_after w lib (tr ++ [invocation_event w f]) before fn =
  output_after w lib tr (f :: before) fn.
Proof.
  unfold output_after. simpl map. rewrite <- app_assoc. reflexivity.
Qed.

Lemma primary_loop_short_circuit (w : World) (lib : PyLib) (msg : string)
    (fk : fcall) (post : list fcall) :
  forall (parts : list part) (pre : list fcall) (acc : dict) (tr : trace)
         (l : option dict),
    invocations parts = pre ++ fk :: post ->
    (forall before fn after,
        pre = before ++ fn :: after ->
        py_in "error" (output_after w lib tr before fn) = Ret false) ->
    is_failure (output_after w lib tr pre fk) msg ->
    primary_loop w lib parts acc (mkState tr l) =
    (Ret (inl (sorry_prefix ++ msg)%string),
     mkState (tr ++ map (invocation_event w) (pre ++ [fk])) l).
Proof.
  induction parts as [|p rest IH]; intros pre acc tr l Hinv Hpre Hfail.
  - simpl in Hinv. destruct pre; discriminate.
  - simpl in Hinv. destruct (kind p) as [ | | fn] eqn:Hp.
    + rewrite (primary_loop_skip w lib p rest acc Hp). apply IH; assumption.
    + destruct pre; discriminate Hinv.
    + destruct pre as [|f pre'].
      * simpl in Hinv. injection Hinv as -> Hrest.
        exact (primary_loop_step_fail w lib p fk rest acc tr l msg Hp Hfail).
      * simpl in Hinv. injection Hinv as -> Hrest.
        rewrite (primary_loop_step_ok w lib p f rest acc tr l Hp
                   (Hpre [] f pre' eq_refl)).
        rewrite (IH pre' _ (tr ++ [invocation_event w f]) l Hrest).
        -- simpl map. rewrite <- app_assoc. reflexivity.
        -- intros before fn after E. rewrite output_after_cons.
           apply (Hpre (f :: before) fn after). rewrite E. reflexivity.
        -- rewrite output_after_cons. exact Hfail.
Qed.

Lemma run_agent_unfold (w : World) (lib : PyLib) (q : string) (s : state)
    (resp : model_response) (parts : list part) :
  generate_content w (calls s) TOOLS q = Ret resp ->
  first_parts resp = Ret parts ->
  run_agent w lib q s =
  match primary_loop w lib parts []
          (mkState (calls s ++ [EvGenerate q]) (last_tool_output s)) with
  | (Ret (inl answer), s') => (Ret answer, s')
  | (Ret (inr all_results), s') => respond w lib q all_results s'
  | (Raise e, s') => (Raise e, s')
  end.
Proof.
  intros Hgen Hparts. unfold run_agent.
  unfold bind at 1. unfold do_generate at 1. rewrite Hgen.
  unfold bind at 1. unfold lift at 1. rewrite Hparts.
  unfold bind at 1.
  destruct (primary_loop w lib parts []
              (mkState (calls s ++ [EvGenerate q]) (last_tool_output s)))
    as [[[answer | all_results] | e] s']; reflexivity.
Qed.

(** C1.  Let the model propose the invocations [pre ++ fk :: post], let
    those of [pre] run without a failure, and let [fk] come back as the
    failure [msg].  Then the invocations of [post] are never made (the POSTs
    of the run are those of [pre] and [fk], and the model is asked once),
    the answer is ["I am sorry, something went wrong → " ++ msg], and
    nothing is kept of the results so far. *)
Theorem short_circuit_on_failure :
  forall (w : World) (lib : PyLib) (q : string) (s : state)
         (resp : model_response) (parts : list part)
         (pre : list fcall) (fk : fcall) (post : list fcall) (msg : string),
    generate_content w (calls s) TOOLS q = Ret resp ->
    first_parts resp = Ret parts ->
    invocations parts = pre ++ fk :: post ->
    (forall before fn after,
        pre = before ++ fn :: after ->
        py_in "error"
          (output_after w lib (calls s ++ [EvGenerate q]) before fn)
        = Ret false) ->
    is_failure (output_after w lib (calls s ++ [EvGenerate q]) pre fk) msg ->
    run_agent w lib q s =
    (Ret ("I am sorry, something went wrong → " ++ msg)%string,
     mkState
       (calls s ++ EvGenerate q :: map (invocation_event w) (pre ++ [fk]))
       (last_tool_output s)).
Proof.
  intros w lib q s resp parts pre fk post msg Hgen Hparts Hinv Hpre Hfail.
  rewrite (run_agent_unfold w lib q s resp parts Hgen Hparts).
  rewrite (primary_loop_short_circuit w lib msg fk post parts pre []
             (calls s ++ [EvGenerate q]) (last_tool_output s) Hinv Hpre Hfail).
  rewrite <- app_assoc. reflexivity.
Qed.

Lemma short_circuit_on_failure_witness :
  run_agent Demo.world Demo.lib "weather in Atlantis" Demo.fresh =
  (Ret "I am sorry, something went wrong → Location not found",
   mkState
     [EvGenerate "weather in Atlantis";
      EvPost "http://127.0.0.1:8080/tool/geocode_location"
        (JObj [("location", JStr "Atlantis")]);
      EvPost "http://127.0.0.1:8080/tool/get_weather"
        (JObj [("location", JStr "Atlantis")])]
     None).
Proof.
  apply (short_circuit_on_failure Demo.world Demo.lib "weather in Atlantis"
           Demo.fresh
           (mkResponse
              [[call_part "geocode_location" [("location", JStr "Atlantis")];
                call_part "get_weather" [("location", JStr "Atlantis")];
                call_part "search_places"
                  [("query", JStr "coffee"); ("location", JStr "Atlantis")]]]
              (Raise (ExternalError "no text part")))
           [call_part "geocode_location" [("location", JStr "Atlantis")];
            call_part "get_weather" [("location", JStr "Atlantis")];
            call_part "search_places"
              [("query", JStr "coffee"); ("location", JStr "Atlantis")]]
           [mkCall "geocode_location" [("location", JStr "Atlantis")]]
           (mkCall "get_weather" [("location", JStr "Atlantis")])
           [mkCall "search_places"
              [("query", JStr "coffee"); ("location", JStr "Atlantis")]]
           "Location not found").
  - reflexivity.
  - reflexivity.
  - reflexivity.
  - intros [|b before] fn after H.
    + injection H as <- _. reflexivity.
    + destruct before; discriminate H.
  - exists [("error", JStr "Location not found")]. split; reflexivity.
Defined.

(** With no result at all there is no translation and no structured
    answer: the model is asked again. *)
Lemma respond_empty (w : World) (lib : PyLib) (q : string) (s : state) :
  respond w lib q [] s =
  (Ret match generate_content w (calls s) TOOLS q with
       | Ret final_response =>
           match text final_response with
           | Ret t => t
           | Raise _ => fallback_message
           end
       | Raise _ => fallback_message
       end,
   mkState (calls s ++ [EvGenerate q]) (last_tool_output s)).
Proof.
  unfold respond, chain_trigger. simpl dict_has. simpl andb.
  unfold bind, ret, try_except, do_generate, lift.
  change (dict_truthy []) with false. cbv beta iota.
  destruct (generate_content w (calls s) TOOLS q) as [final_response | e];
    [|reflexivity].
  destruct (text final_response); reflexivity.
Qed.

(** C9.  The plain-text path, as the code has it.  A part that holds text
    has the attribute [function_call], so the loop does not pass over it:
    it builds [args] from a call without arguments and raises, after the
    one model call and before any other call; no second model call is made
    and no fallback message is returned.  The second model call, with the
    fixed message when it fails, is what happens for an answer none of
    whose parts has the attribute, an answer without parts among them. *)
Theorem text_answer_raises :
  forall (w : World) (lib : PyLib) (q : string) (s : state)
         (resp : model_response),
    generate_content w (calls s) TOOLS q = Ret resp ->
    (forall rest,
        first_parts resp = Ret (text_part :: rest) ->
        run_agent w lib q s =
        (Raise (RuntimeFault (NotContainer JNull)),
         mkState (calls s ++ [EvGenerate q]) (last_tool_output s))) /\
    (forall parts,
        first_parts resp = Ret parts ->
        Forall (fun p => function_call p = None) parts ->
        run_agent w lib q s =
        (Ret match generate_content w (calls s ++ [EvGenerate q]) TOOLS q with
             | Ret final_response =>
                 match text final_response with
                 | Ret t => t
                 | Raise _ => "Sorry — I could not summarize the results."
                 end
             | Raise _ => "Sorry — I could not summarize the results."
             end,
         mkState (calls s ++ [EvGenerate q; EvGenerate q])
           (last_tool_output s))).
Proof.
  intros w lib q s resp Hgen. split.
  - intros rest Hparts.
    rewrite (run_agent_unfold w lib q s resp _ Hgen Hparts).
    rewrite (primary_loop_broken w lib text_part rest [] eq_refl).
    reflexivity.
  - intros parts Hparts Hnone.
    rewrite (run_agent_unfold w lib q s resp parts Hgen Hparts).
    rewrite (primary_loop_no_calls w lib parts).
    + rewrite respond_empty. simpl calls. simpl last_tool_output.
      rewrite <- app_assoc. reflexivity.
    + apply Forall_impl with (2 := Hnone).
      intros p Hp. unfold kind. rewrite Hp. reflexivity.
Qed.

Lemma text_answer_raises_witness :
  run_agent Demo.world Demo.lib "hi" Demo.fresh =
  (Raise (RuntimeFault (NotContainer JNull)), mkState [EvGenerate "hi"] None).
Proof.
  apply (proj1 (text_answer_raises Demo.world Demo.lib "hi" Demo.fresh
                  (mkResponse [[text_part]] (Ret "Hello!")) eq_refl) []).
  reflexivity.
Defined.

(** ** The automatic translation *)

Lemma dict_get_set_same (k : string) (v : json) (d : dict) :
  dict_get k (dict_set k v d) = Some v.
Proof.
  induction d as [|[k' v'] r IH]; simpl.
  - rewrite String.eqb_refl. reflexivity.
  - destruct (String.eqb k k') eqn:E; simpl; rewrite E; [reflexivity | exact IH].
Qed.

Lemma dict_set_truthy (k : string) (v : json) (d : dict) :
  dict_truthy (dict_set k v d) = true.
Proof.
  destruct d as [|[k' v'] r]; simpl; [reflexivity|].
  destruct (String.eqb k k'); reflexivity.
Qed.

Lemma py_get_object (v : json) (k : string) (default : json) :
  is_object v ->
  py_get v k default =
  Ret match v with
      | JObj d => match dict_get k d with Some x => x | None => default end
      | _ => default
      end.
Proof.
  intros [d ->]. simpl. destruct (dict_get k d); reflexivity.
Qed.

Lemma answers_objects_ok (w : World) (lib : PyLib) (target : string) :
  answers_objects w lib "translate_text" ->
  forall names tr, answers_ok w lib target tr names.
Proof.
  intros H names. induction names as [|n rest IH]; intros tr; simpl.
  - exact I.
  - split; [apply H | apply IH].
Qed.

Lemma translate_loop_run (w : World) (lib : PyLib) (target : string) :
  forall (names : list json) (acc : list json) (tr : trace) (l : option dict),
    answers_ok w lib target tr names ->
    translate_loop w lib target names acc (mkState tr l) =
    (Ret (acc ++ expected_translations w lib target tr names),
     mkState (tr ++ map (translate_event w target) names) l).
Proof.
  induction names as [|n rest IH]; intros acc tr l Hok.
  - simpl. unfold ret. rewrite !app_nil_r. reflexivity.
  - destruct Hok as [Hobj Hrest]. simpl translate_loop.
    unfold bind at 1. rewrite call_tool_run. simpl calls. simpl last_tool_output.
    unfold bind at 1, lift at 1.
    rewrite (py_get_object _ "translated_text" (JStr "[error]") Hobj).
    rewrite (IH _ _ l Hrest). simpl. rewrite <- !app_assoc. reflexivity.
Qed.

Lemma comprehension_named (l names : list json) :
  Forall2 named l names ->
  comprehension (fun p => py_getitem p "name") l = Ret names.
Proof.
  induction 1 as [|e n l names [d [-> Hn]] _ IH]; simpl.
  - reflexivity.
  - rewrite Hn, IH. reflexivity.
Qed.


(** The body of the [if], run on a places payload that is a mapping whose
    list [places] (empty when there is no ["results"] key) has named
    entities in its first three positions. *)
Lemma chain_run (w : World) (lib : PyLib) (q : string) (all_results sp : dict)
    (places names : list json) (s : state) :
  dict_get "search_places" all_results = Some (JObj sp) ->
  match dict_get "results" sp with
  | Some v => v = JArr places
  | None => places = []
  end ->
  Forall2 named (firstn 3 places) names ->
  answers_ok w lib (target_lang q) (calls s) names ->
  chain w lib q all_results s =
  (Ret (dict_set "translations"
          (JArr (expected_translations w lib (target_lang q) (calls s) names))
          all_results),
   mkState (calls s ++ map (translate_event w (target_lang q)) names)
     (last_tool_output s)).
Proof.
  intros Hsp Hres Hnamed Hok. unfold chain.
  unfold bind at 1, lift at 1. simpl py_getitem. rewrite Hsp.
  unfold bind at 1, lift at 1.
  assert (Hplaces : py_get (JObj sp) "results" (JArr []) = Ret (JArr places)).
  { simpl. destruct (dict_get "results" sp); rewrite Hres; reflexivity. }
  rewrite Hplaces.
  unfold bind at 1, lift at 1.
  change (py_first3 (JArr places)) with (Ret (firstn 3 places)).
  unfold bind at 1, lift at 1. rewrite (comprehension_named _ _ Hnamed).
  unfold bind at 1. destruct s as [tr l]. simpl calls in *.
  rewrite (translate_loop_run w lib (target_lang q) names [] tr l Hok).
  reflexivity.
Qed.





Lemma demo_found_named :
  Forall2 named (firstn 3 Demo.found_places) Demo.found_names.
Proof.
  simpl. repeat (constructor; [eexists; split; reflexivity|]). constructor.
Qed.






(** After a chaining that returned [all'], a results mapping that is not
    empty, the answer is its serialisation and the mapping is kept in
    [run_agent.last_tool_output]. *)
Lemma respond_chained (w : World) (lib : PyLib) (q : string)
    (all_results all' : dict) (s s' : state) :
  chain_trigger q all_results = true ->
  chain w lib q all_results s = (Ret all', s') ->
  dict_truthy all' = true ->
  respond w lib q all_results s =
  (Ret (json_dumps lib (JObj all')), mkState (calls s') (Some all')).
Proof.
  intros Htrig Hchain Htruthy. unfold respond. rewrite Htrig.
  unfold bind at 1. rewrite Hchain. rewrite Htruthy.
  reflexivity.
Qed.

(** C10.  Let the guard of the chaining hold, the places payload being a
    mapping.  When its ["results"] is a list whose first three entities are
    named and the translation tool answers with tool results, the answer is
    the serialisation of a mapping that has the key ["translations"].  When
    the payload has no ["results"] key, or an empty list under it, that
    holds with no further condition: the value under ["translations"] is
    the empty list and no call is made. *)
Theorem translations_key_present :
  forall (w : World) (lib : PyLib) (q : string) (all_results sp : dict)
         (s : state),
    chain_trigger q all_results = true ->
    dict_get "search_places" all_results = Some (JObj sp) ->
    (forall entities names,
        dict_get "results" sp = Some (JArr entities) ->
        Forall2 named (firstn 3 entities) names ->
        answers_objects w lib "translate_text" ->
        exists d,
          fst (respond w lib q all_results s) = Ret (json_dumps lib (JObj d)) /\
          dict_has "translations" d = true) /\
    (dict_get "results" sp = None \/ dict_get "results" sp = Some (JArr []) ->
     respond w lib q all_results s =
       (Ret (json_dumps lib
               (JObj (dict_set "translations" (JArr []) all_results))),
        mkState (calls s)
          (Some (dict_set "translations" (JArr []) all_results))) /\
     dict_get "translations" (dict_set "translations" (JArr []) all_results) =
       Some (JArr [])).
Proof.
  intros w lib q all_results sp s Htrig Hsp. split.
  - intros entities names Hres Hnamed Hobj.
    assert (Hrun := chain_run w lib q all_results sp entities names s Hsp).
    rewrite Hres in Hrun.
    specialize (Hrun eq_refl Hnamed
                  (answers_objects_ok w lib (target_lang q) Hobj names (calls s))).
    eexists.
    rewrite (respond_chained w lib q all_results _ s _ Htrig Hrun
               (dict_set_truthy _ _ _)).
    split; [reflexivity|].
    unfold dict_has. rewrite dict_get_set_same. reflexivity.
  - intros Hres.
    assert (Hrun : chain w lib q all_results s =
                   (Ret (dict_set "translations" (JArr []) all_results),
                    mkState (calls s ++ []) (last_tool_output s))).
    { apply (chain_run w lib q all_results sp [] [] s Hsp).
      - destruct Hres as [-> | ->]; reflexivity.
      - constructor.
      - exact I. }
    rewrite (respond_chained w lib q all_results _ s _ Htrig Hrun
               (dict_set_truthy _ _ _)).
    simpl calls. rewrite app_nil_r.
    split; [reflexivity | apply dict_get_set_same].
Qed.

Lemma translations_key_present_witness :
  respond Demo.world Demo.lib "translate the places"
    [("search_places", JObj [])] Demo.fresh =
  (Ret (json_dumps Demo.lib
          (JObj [("search_places", JObj []); ("translations", JArr [])])),
   mkState [] (Some [("search_places", JObj []); ("translations", JArr [])])).
Proof.
  apply (proj2 (translations_key_present Demo.world Demo.lib
                  "translate the places" [("search_places", JObj [])] []
                  Demo.fresh eq_refl eq_refl)).
  left. reflexivity.
Defined.

(** ** The entry point [/ask] *)



(** ** The attribute [run_agent.last_tool_output] *)

Section Attribute.

Variables (w : World) (lib : PyLib).

Lemma untouched_ret {A} (a : A) : untouched (ret a).
Proof. intros tr. exists (Ret a), tr, None. split; reflexivity. Qed.

Lemma untouched_lift {A} (o : outcome A) : untouched (lift o).
Proof. intros tr. exists o, tr, None. split; reflexivity. Qed.

Lemma untouched_do_post (url : string) (arguments : json) :
  untouched (do_post w url arguments).
Proof.
  intros tr.
  exists (requests_post w tr url arguments), (tr ++ [EvPost url arguments]), None.
  split; [reflexivity | intros l; reflexivity].
Qed.

Lemma untouched_do_generate (q : string) : untouched (do_generate w q).
Proof.
  intros tr.
  exists (generate_content w tr TOOLS q), (tr ++ [EvGenerate q]), None.
  split; [reflexivity | intros l; reflexivity].
Qed.

(** Sequencing: after a computation that leaves the attribute alone, what
    the continuation does is what the whole does. *)
Lemma blind_bind {A B} (m : M A) (k : A -> M B)
    (post : outcome B -> option dict -> Prop) :
  untouched m ->
  (forall a, blind (k a) post) ->
  (forall e, post (Raise e) None) ->
  blind (bind m k) post.
Proof.
  intros Hm Hk Hraise tr.
  destruct (Hm tr) as [r [tr1 [wr [Hwr Hrun]]]]. subst wr.
  destruct r as [a | e].
  - destruct (Hk a tr1) as [r2 [tr2 [wr2 [Hpost Hrun2]]]].
    exists r2, tr2, wr2. split; [exact Hpost|].
    intros l. unfold bind. rewrite Hrun. simpl assigned. apply Hrun2.
  - exists (Raise e), tr1, None. split; [apply Hraise|].
    intros l. unfold bind. rewrite Hrun. reflexivity.
Qed.

Lemma untouched_bind {A B} (m : M A) (k : A -> M B) :
  untouched m -> (forall a, untouched (k a)) -> untouched (bind m k).
Proof.
  intros Hm Hk. apply blind_bind; [exact Hm | exact Hk | reflexivity].
Qed.

Lemma untouched_try_except {A} (m : M A) (h : exn -> M A) :
  untouched m -> (forall e, untouched (h e)) -> untouched (try_except m h).
Proof.
  intros Hm Hh tr.
  destruct (Hm tr) as [r [tr1 [wr [Hwr Hrun]]]]. subst wr.
  destruct r as [a | e].
  - exists (Ret a), tr1, None. split; [reflexivity|].
    intros l. unfold try_except. rewrite Hrun. reflexivity.
  - destruct (Hh e tr1) as [r2 [tr2 [wr2 [Hwr2 Hrun2]]]]. subst wr2.
    exists r2, tr2, None. split; [reflexivity|].
    intros l. unfold try_except. rewrite Hrun. simpl assigned. apply Hrun2.
Qed.

Lemma untouched_call_tool (tool_name : string) (arguments : json) :
  untouched (call_tool w lib tool_name arguments).
Proof.
  unfold call_tool. apply untouched_try_except.
  - apply untouched_bind; [apply untouched_do_post|].
    intros response. apply untouched_lift.
  - intros e. apply untouched_ret.
Qed.

Lemma untouched_primary_loop (parts : list part) :
  forall acc, untouched (primary_loop w lib parts acc).
Proof.
  induction parts as [|p rest IH]; intros acc; simpl.
  - apply untouched_ret.
  - destruct (function_call p) as [fn|]; [|apply IH].
    destruct (fn_args fn) as [args|].
    + apply untouched_bind; [apply untouched_call_tool|]. intros tool_output.
      apply untouched_bind; [apply untouched_lift|]. intros [|].
      * apply untouched_bind; [apply untouched_lift|]. intros msg.
        apply untouched_ret.
      * apply IH.
    + intros tr. exists (Raise (RuntimeFault (NotContainer JNull))), tr, None.
      split; [reflexivity | intros l; reflexivity].
Qed.

Lemma untouched_translate_loop (target : string) (names : list json) :
  forall acc, untouched (translate_loop w lib target names acc).
Proof.
  induction names as [|n rest IH]; intros acc; simpl.
  - apply untouched_ret.
  - apply untouched_bind; [apply untouched_call_tool|]. intros t_out.
    apply untouched_bind; [apply untouched_lift|]. intros translated.
    apply IH.
Qed.

Lemma untouched_chain (q : string) (all_results : dict) :
  untouched (chain w lib q all_results).
Proof.
  unfold chain.
  apply untouched_bind; [apply untouched_lift|]. intros sp.
  apply untouched_bind; [apply untouched_lift|]. intros places.
  apply untouched_bind; [apply untouched_lift|]. intros first3.
  apply untouched_bind; [apply untouched_lift|]. intros names.
  apply untouched_bind; [apply untouched_translate_loop|]. intros translations.
  apply untouched_ret.
Qed.

Lemma blind_respond (q : string) (all_results : dict) :
  blind (respond w lib q all_results) (answer_kept lib).
Proof.
  unfold respond. apply blind_bind.
  - destruct (chain_trigger q all_results);
      [apply untouched_chain | apply untouched_ret].
  - intros d. destruct (dict_truthy d) eqn:Hd.
    + intros tr. exists (Ret (json_dumps lib (JObj d))), tr, (Some d).
      split.
      * intros d' Hd'. injection Hd' as <-. split; [reflexivity | exact Hd].
      * intros l. reflexivity.
    + assert (H : untouched
                    (try_except
                       (bind (do_generate w q)
                          (fun final_response => lift (text final_response)))
                       (fun _ => ret fallback_message))).
      { apply untouched_try_except.
        - apply untouched_bind; [apply untouched_do_generate|].
          intros final_response. apply untouched_lift.
        - intros e. apply untouched_ret. }
      intros tr. destruct (H tr) as [r [tr' [wr [Hwr Hrun]]]]. subst wr.
      exists r, tr', None. split; [intros d' Hd'; discriminate Hd' | exact Hrun].
  - intros e d' Hd'. discriminate Hd'.
Qed.

Lemma blind_run_agent (q : string) :
  blind (run_agent w lib q) (answer_kept lib).
Proof.
  assert (Hraise : forall e, answer_kept lib (Raise e) None)
    by (intros e d' Hd'; discriminate Hd').
  unfold run_agent.
  apply blind_bind; [apply untouched_do_generate | | exact Hraise].
  intros response.
  apply blind_bind; [apply untouched_lift | | exact Hraise].
  intros parts.
  apply blind_bind; [apply untouched_primary_loop | | exact Hraise].
  intros [answer | all_results].
  - intros tr. exists (Ret answer), tr, None.
    split; [intros d' Hd'; discriminate Hd' | intros l; reflexivity].
  - apply blind_respond.
Qed.

End Attribute.

(** C5, as the code has it.  [run_agent] never reads
    [run_agent.last_tool_output]: its outcome and its calls are the same
    whatever the attribute held.  It assigns the attribute only together
    with a structured answer, to the very mapping it serialises, and leaves
    it as it was on every other path; a structured answer without chaining
    is one such assignment. *)
Theorem last_tool_output_written_not_read :
  forall (w : World) (lib : PyLib) (q : string),
    (forall tr, exists r tr' written,
        (forall d, written = Some d ->
                   r = Ret (json_dumps lib (JObj d)) /\ dict_truthy d = true) /\
        forall l, run_agent w lib q (mkState tr l) =
                  (r, mkState tr' (assigned written l))) /\
    (forall all_results s,
        chain_trigger q all_results = false ->
        dict_truthy all_results = true ->
        respond w lib q all_results s =
        (Ret (json_dumps lib (JObj all_results)),
         mkState (calls s) (Some all_results))).
Proof.
  intros w lib q. split.
  - exact (blind_run_agent w lib q).
  - intros all_results s Htrig Htruthy. unfold respond. rewrite Htrig.
    unfold bind at 1, ret at 1. rewrite Htruthy. reflexivity.
Qed.

(** C5, as stated, fails.  A fresh process has the attribute unassigned;
    after the coffee query it holds the results of that query, and it still
    holds them when a later query has been handled. *)
Lemma last_tool_output_survives :
  last_tool_output Demo.fresh = None /\
  (exists d,
     last_tool_output
       (snd (run_agent Demo.world Demo.lib Demo.coffee_query Demo.fresh))
     = Some d /\
     dict_has "search_places" d = true /\
     dict_has "translations" d = true /\
     last_tool_output
       (snd (run_agent Demo.world Demo.lib "hi"
               (snd (run_agent Demo.world Demo.lib Demo.coffee_query
                       Demo.fresh))))
     = Some d).
Proof.
  split; [reflexivity|].
  eexists. split; [vm_compute; reflexivity|].
  split; [reflexivity|]. split; reflexivity.
Qed.

(** * Further properties *)

(** ** [geocode_location] *)

(** Every way [geocode_location] can end.  It sends a request only for a
    location that is truthy, and then exactly one. *)
Lemma geocode_run (svc : Tools.Services) (lib : PyLib) (data : json)
    (h : list Tools.request) :
  let query := match data with
               | JObj d => Tools.get_or_none "location" d
               | _ => data
               end in
  match Tools.geocode_location svc lib data h with
  | (Ret v, h') =>
      (py_truthy query = false /\ v = error_dict "Missing location" /\ h' = h) \/
      (py_truthy query = true /\ h' = h ++ [nominatim_request lib query] /\
       (v = error_dict "Invalid JSON returned by geocoding API" \/
        v = error_dict "Location not found" \/
        geocoded v))
  | (Raise _, h') =>
      py_truthy query = true /\ h' = h ++ [nominatim_request lib query]
  end.
Proof.
  intros query. unfold Tools.geocode_location. fold query.
  destruct (py_truthy query) eqn:Hq; cbn [negb].
  2:{ unfold Tools.tret. left. repeat split. }
  unfold Tools.tbind at 1, Tools.do_get at 1. fold (nominatim_request lib query).
  destruct (Tools.requests_get svc h (Tools.nominatim_url lib query)
              [("User-Agent", "SmartCityAgent")] []) as [response | e].
  2:{ split; reflexivity. }
  destruct (Tools.reply_json response) as [results | e].
  2:{ unfold Tools.tret. right. split; [reflexivity|]. split; [reflexivity|].
      left. reflexivity. }
  destruct (py_truthy results) eqn:Hr; cbn [negb].
  2:{ unfold Tools.tret. right. split; [reflexivity|]. split; [reflexivity|].
      right. left. reflexivity. }
  unfold Tools.tbind, Tools.tlift, Tools.tret.
  destruct (py_index0 results) as [result | e]; [|split; reflexivity].
  destruct result; cbn [py_get]; try (split; reflexivity).
  destruct (dict_get "display_name" d); destruct (dict_get "lat" d);
    destruct (dict_get "lon" d);
    (right; split; [reflexivity|]; split; [reflexivity|]; right; right;
     eexists; eexists; eexists; reflexivity).
Qed.

Lemma py_get_obj (d : dict) (k : string) :
  py_get (JObj d) k JNull = Ret (Tools.get_or_none k d).
Proof. unfold Tools.get_or_none. simpl. destruct (dict_get k d); reflexivity. Qed.

Lemma geocode_ret (svc : Tools.Services) (lib : PyLib) (location : json)
    (h : list Tools.request) (g : json) (hg : list Tools.request) :
  Tools.geocode_location svc lib (location_arg location) h = (Ret g, hg) ->
  failure g \/ geocoded g.
Proof.
  intros Hg. pose proof (geocode_run svc lib (location_arg location) h) as H.
  cbv zeta in H. rewrite Hg in H.
  destruct H as [[_ [-> _]] | [_ [_ [-> | [-> | H]]]]].
  - left. eexists. reflexivity.
  - left. eexists. reflexivity.
  - left. eexists. reflexivity.
  - right. exact H.
Qed.

Ltac outcome_cases :=
  repeat (match goal with
          | |- context [match ?x with Ret _ => _ | Raise _ => _ end] =>
              destruct x
          end; cbv beta iota).

(** ** [get_weather] *)

Lemma get_weather_run (svc : Tools.Services) (lib : PyLib) (d : dict)
    (h : list Tools.request) :
  let location := Tools.get_or_none "location" d in
  match Tools.get_weather svc lib (JObj d) h with
  | (Ret v, h') =>
      (py_truthy location = false /\
       v = error_dict "Missing required field: 'location'" /\ h' = h) \/
      (py_truthy location = true /\
       exists g hg,
         Tools.geocode_location svc lib (location_arg location) h = (Ret g, hg) /\
         ((failure g /\ v = g /\ h' = hg) \/
          (exists display_name lat lon,
             g = JObj [("display_name", display_name);
                       ("lat", lat); ("lon", lon)] /\
             h' = hg ++ [weather_request svc lat lon] /\
             (failure v \/ weather_report location v))))
  | (Raise e, h') =>
      py_truthy location = true /\
      Tools.geocode_location svc lib (location_arg location) h = (Raise e, h')
  end.
Proof.
  intros location. unfold Tools.get_weather.
  unfold Tools.tbind at 1, Tools.tlift at 1. rewrite py_get_obj. fold location.
  destruct (py_truthy location) eqn:Hloc; cbn [negb].
  2:{ unfold Tools.tret. left. repeat split. }
  unfold Tools.tbind at 1. fold (location_arg location).
  destruct (Tools.geocode_location svc lib (location_arg location) h)
    as [[g | e] hg] eqn:Hg.
  2:{ split; reflexivity. }
  destruct (geocode_ret svc lib location h g hg Hg)
    as [[msg ->] | [dn [lat [lon ->]]]].
  - unfold Tools.tbind, Tools.tlift, Tools.tret. cbn [py_in error_dict].
    change (dict_has "error" [("error", JStr msg)]) with true. cbv beta iota.
    right. split; [reflexivity|]. exists (error_dict msg), hg.
    split; [reflexivity|]. left. split; [eexists; reflexivity|].
    split; reflexivity.
  - unfold Tools.tbind at 1, Tools.tlift at 1. cbn [py_in].
    change (dict_has "error" [("display_name", dn); ("lat", lat); ("lon", lon)])
      with false. cbv beta iota.
    unfold Tools.tbind at 1, Tools.tlift at 1.
    change (py_getitem (JObj [("display_name", dn); ("lat", lat); ("lon", lon)])
              "lat") with (Ret lat). cbv beta iota.
    unfold Tools.tbind at 1, Tools.tlift at 1.
    change (py_getitem (JObj [("display_name", dn); ("lat", lat); ("lon", lon)])
              "lon") with (Ret lon). cbv beta iota.
    fold (weather_request svc lat lon).
    unfold Tools.ttry, Tools.tbind, Tools.tlift, Tools.tret, Tools.do_get.
    fold (weather_request svc lat lon).
    outcome_cases;
      (right; split; [reflexivity|];
       exists (JObj [("display_name", dn); ("lat", lat); ("lon", lon)]), hg;
       split; [reflexivity|]; right; exists dn, lat, lon;
       split; [reflexivity|]; split; [reflexivity|];
       first [ left; eexists; reflexivity
             | right; eexists; eexists; eexists; eexists; reflexivity ]).
Qed.

(** ** [search_places] *)

Lemma clean_business_entity (business c : json) :
  Tools.clean_business business = Ret c -> cleaned_entity c.
Proof.
  unfold Tools.clean_business. intros H.
  repeat match type of H with
         | match ?x with Ret _ => _ | Raise _ => _ end = _ =>
             destruct x; [|discriminate H]
         end.
  injection H as <-. unfold cleaned_entity.
  eexists. eexists. eexists. eexists. eexists. reflexivity.
Qed.

Lemma cleaned_entities (items : list json) :
  forall cleaned,
    comprehension Tools.clean_business items = Ret cleaned ->
    Forall cleaned_entity cleaned.
Proof.
  induction items as [|b rest IH]; simpl; intros cleaned H.
  - injection H as <-. constructor.
  - destruct (Tools.clean_business b) as [c | e] eqn:Hc; [|discriminate H].
    destruct (comprehension Tools.clean_business rest) as [cs | e] eqn:Hcs;
      [|discriminate H].
    injection H as <-. constructor.
    + exact (clean_business_entity b c Hc).
    + exact (IH cs eq_refl).
Qed.

Ltac outcome_cases_eqn :=
  repeat (match goal with
          | |- context [match ?x with Ret _ => _ | Raise _ => _ end] =>
              destruct x eqn:?
          end; cbv beta iota).

Lemma search_places_run (svc : Tools.Services) (lib : PyLib) (d : dict)
    (h : list Tools.request) :
  let query := Tools.get_or_none "query" d in
  let location := Tools.get_or_none "location" d in
  match Tools.search_places svc lib (JObj d) h with
  | (Ret v, h') =>
      ((py_truthy query = false \/ py_truthy location = false) /\
       v = error_dict "Both 'query' and 'location' are required" /\ h' = h) \/
      (py_truthy query = true /\ py_truthy location = true /\
       Tools.env_truthy (Tools.YELP_API_KEY svc) = false /\
       v = error_dict "YELP_API_KEY not found in environment variables" /\
       h' = h) \/
      (py_truthy query = true /\ py_truthy location = true /\
       Tools.env_truthy (Tools.YELP_API_KEY svc) = true /\
       exists g hg,
         Tools.geocode_location svc lib (location_arg location) h = (Ret g, hg) /\
         ((failure g /\ v = g /\ h' = hg) \/
          (exists display_name lat lon,
             g = JObj [("display_name", display_name);
                       ("lat", lat); ("lon", lon)] /\
             h' = hg ++ [yelp_request svc query lat lon] /\
             (failure v \/ places_payload v))))
  | (Raise e, h') =>
      py_truthy query = true /\ py_truthy location = true /\
      Tools.env_truthy (Tools.YELP_API_KEY svc) = true /\
      Tools.geocode_location svc lib (location_arg location) h = (Raise e, h')
  end.
Proof.
  intros query location. unfold Tools.search_places.
  unfold Tools.tbind at 1, Tools.tlift at 1. rewrite py_get_obj. fold query.
  unfold Tools.tbind at 1, Tools.tlift at 1. rewrite py_get_obj. fold location.
  destruct (py_truthy query) eqn:Hq; cbn [negb orb].
  2:{ unfold Tools.tret. left. split; [left; reflexivity | split; reflexivity]. }
  destruct (py_truthy location) eqn:Hloc; cbn [negb].
  2:{ unfold Tools.tret. left. split; [right; reflexivity | split; reflexivity]. }
  destruct (Tools.env_truthy (Tools.YELP_API_KEY svc)) eqn:Hkey; cbn [negb].
  2:{ unfold Tools.tret. right. left. repeat split. }
  unfold Tools.tbind at 1. fold (location_arg location).
  destruct (Tools.geocode_location svc lib (location_arg location) h)
    as [[g | e] hg] eqn:Hg.
  2:{ repeat split. }
  destruct (geocode_ret svc lib location h g hg Hg)
    as [[msg ->] | [dn [lat [lon ->]]]].
  - unfold Tools.tbind, Tools.tlift, Tools.tret. cbn [py_in error_dict].
    change (dict_has "error" [("error", JStr msg)]) with true. cbv beta iota.
    right. right. repeat (split; [reflexivity|]).
    exists (error_dict msg), hg.
    split; [reflexivity|]. left. split; [eexists; reflexivity|].
    split; reflexivity.
  - unfold Tools.tbind at 1, Tools.tlift at 1. cbn [py_in].
    change (dict_has "error" [("display_name", dn); ("lat", lat); ("lon", lon)])
      with false. cbv beta iota.
    unfold Tools.tbind at 1, Tools.tlift at 1.
    change (py_getitem (JObj [("display_name", dn); ("lat", lat); ("lon", lon)])
              "lat") with (Ret lat). cbv beta iota.
    unfold Tools.tbind at 1, Tools.tlift at 1.
    change (py_getitem (JObj [("display_name", dn); ("lat", lat); ("lon", lon)])
              "lon") with (Ret lon). cbv beta iota.
    unfold Tools.ttry, Tools.tbind, Tools.tlift, Tools.tret, Tools.do_get.
    fold (yelp_request svc query lat lon).
    outcome_cases_eqn;
      (right; right; repeat (split; [reflexivity|]);
       exists (JObj [("display_name", dn); ("lat", lat); ("lon", lon)]), hg;
       split; [reflexivity|]; right; exists dn, lat, lon;
       split; [reflexivity|]; split; [reflexivity|];
       first [ left; eexists; reflexivity
             | right; eexists; split; [reflexivity|];
               eapply cleaned_entities; eassumption ]).
Qed.

(** ** [translate_text] *)

Lemma translate_text_run (svc : Tools.Services) (lib : PyLib) (d : dict)
    (h : list Tools.request) :
  let text' := Tools.get_or_none "text" d in
  let target := Tools.get_or_none "target_lang" d in
  match Tools.translate_text svc lib (JObj d) h with
  | (Ret v, h') =>
      ((py_truthy text' = false \/ py_truthy target = false) /\
       v = error_dict "Both 'text' and 'target_lang' are required" /\
       h' = h) \/
      (py_truthy text' = true /\ py_truthy target = true /\
       h' = h ++ [translate_request lib text' target] /\
       (failure v \/ translation v))
  | (Raise _, _) => False
  end.
Proof.
  intros text' target. unfold Tools.translate_text.
  unfold Tools.tbind at 1, Tools.tlift at 1. rewrite py_get_obj. fold text'.
  unfold Tools.tbind at 1, Tools.tlift at 1. rewrite py_get_obj. fold target.
  destruct (py_truthy text') eqn:Ht; cbn [negb orb].
  2:{ unfold Tools.tret. left. split; [left; reflexivity | split; reflexivity]. }
  destruct (py_truthy target) eqn:Hg; cbn [negb].
  2:{ unfold Tools.tret. left. split; [right; reflexivity | split; reflexivity]. }
  unfold Tools.ttry, Tools.tbind, Tools.tlift, Tools.tret, Tools.do_gemini.
  fold (translate_request lib text' target).
  outcome_cases;
    (right; repeat (split; [reflexivity|]);
     first [ left; eexists; reflexivity | right; eexists; reflexivity ]).
Qed.

(** ** What the tools guarantee *)

(** X1.  [geocode_location] sends exactly one request, the Nominatim search
    for the location, when the location is truthy; when it is not (the key
    is missing, or the value is [None], empty or zero), it sends none and
    answers ["Missing location"]. *)
Theorem geocode_one_request_or_none :
  forall (svc : Tools.Services) (lib : PyLib) (data : json)
         (h : list Tools.request),
    let query := match data with
                 | JObj d => Tools.get_or_none "location" d
                 | _ => data
                 end in
    if py_truthy query
    then snd (Tools.geocode_location svc lib data h) =
         h ++ [nominatim_request lib query]
    else Tools.geocode_location svc lib data h =
         (Ret (error_dict "Missing location"), h).
Proof.
  intros svc lib data h query.
  pose proof (geocode_run svc lib data h) as H. cbv zeta in H. fold query in H.
  destruct (Tools.geocode_location svc lib data h) as [[v | e] h'].
  - destruct H as [[Hq [-> ->]] | [Hq [-> _]]]; rewrite Hq; reflexivity.
  - destruct H as [Hq ->]. rewrite Hq. reflexivity.
Qed.

(** X2.  Whatever Nominatim answers, a result returned by
    [geocode_location] is one of its three failures or a mapping with
    exactly the keys [display_name], [lat] and [lon]. *)
Theorem geocode_result_shape :
  forall (svc : Tools.Services) (lib : PyLib) (data : json)
         (h : list Tools.request),
    match fst (Tools.geocode_location svc lib data h) with
    | Ret v =>
        v = error_dict "Missing location" \/
        v = error_dict "Invalid JSON returned by geocoding API" \/
        v = error_dict "Location not found" \/
        geocoded v
    | Raise _ => True
    end.
Proof.
  intros svc lib data h.
  pose proof (geocode_run svc lib data h) as H. cbv zeta in H.
  destruct (Tools.geocode_location svc lib data h) as [[v | e] h']; simpl fst.
  - destruct H as [[_ [-> _]] | [_ [_ [-> | [-> | H]]]]]; auto.
  - exact I.
Qed.

(** X3.  Once the request to Nominatim has been answered:
    an answer that is not JSON gives ["Invalid JSON returned by geocoding
    API"]; a falsy document (an empty list) gives ["Location not found"];
    a list whose first element is a mapping gives the three fields of that
    first element, [None] standing for a field it lacks, the other elements
    being ignored. *)
Theorem geocode_answers :
  forall (svc : Tools.Services) (lib : PyLib) (data : json)
         (h : list Tools.request) (response : Tools.reply),
    let query := match data with
                 | JObj d => Tools.get_or_none "location" d
                 | _ => data
                 end in
    py_truthy query = true ->
    Tools.requests_get svc h (Tools.nominatim_url lib query)
      [("User-Agent", "SmartCityAgent")] [] = Ret response ->
    (forall e,
        Tools.reply_json response = Raise e ->
        fst (Tools.geocode_location svc lib data h) =
        Ret (error_dict "Invalid JSON returned by geocoding API")) /\
    (forall results,
        Tools.reply_json response = Ret results ->
        py_truthy results = false ->
        fst (Tools.geocode_location svc lib data h) =
        Ret (error_dict "Location not found")) /\
    (forall r others,
        Tools.reply_json response = Ret (JArr (JObj r :: others)) ->
        fst (Tools.geocode_location svc lib data h) =
        Ret (JObj [("display_name", Tools.get_or_none "display_name" r);
                   ("lat", Tools.get_or_none "lat" r);
                   ("lon", Tools.get_or_none "lon" r)])).
Proof.
  intros svc lib data h response query Hq Hget.
  assert (Hrun : Tools.geocode_location svc lib data h =
                 match Tools.reply_json response with
                 | Ret results =>
                     if negb (py_truthy results)
                     then Tools.tret (error_dict "Location not found")
                     else
                       Tools.tbind (Tools.tlift (py_index0 results))
                         (fun result =>
                            Tools.tbind
                              (Tools.tlift (py_get result "display_name" JNull))
                              (fun display_name =>
                                 Tools.tbind
                                   (Tools.tlift (py_get result "lat" JNull))
                                   (fun lat =>
                                      Tools.tbind
                                        (Tools.tlift (py_get result "lon" JNull))
                                        (fun lon =>
                                           Tools.tret
                                             (JObj [("display_name", display_name);
                                                    ("lat", lat); ("lon", lon)])))))
                 | Raise _ =>
                     Tools.tret
                       (error_dict "Invalid JSON returned by geocoding API")
                 end (h ++ [nominatim_request lib query])).
  { unfold Tools.geocode_location. fold query. rewrite Hq. cbn [negb].
    unfold Tools.tbind at 1, Tools.do_get at 1. rewrite Hget. reflexivity. }
  rewrite Hrun. split; [|split].
  - intros e He. rewrite He. reflexivity.
  - intros results Hr Hfalsy. rewrite Hr, Hfalsy. reflexivity.
  - intros r others Hr. rewrite Hr. cbn [py_truthy negb].
    unfold Tools.tbind, Tools.tlift, Tools.tret. cbn [py_index0].
    rewrite !py_get_obj. reflexivity.
Qed.

Lemma geocode_answers_witness :
  fst (Tools.geocode_location DemoTools.services DemoTools.lib
         (JObj [("location", JStr "Portland")]) []) =
  Ret (JObj [("display_name", JStr "Portland, Oregon");
             ("lat", JStr "45.52"); ("lon", JStr "-122.67")]).
Proof.
  apply (proj2 (proj2
    (geocode_answers DemoTools.services DemoTools.lib
       (JObj [("location", JStr "Portland")]) []
       (Tools.mkReply (Ret tt) (Ret (JArr [DemoTools.portland])))
       eq_refl eq_refl))
    [("display_name", JStr "Portland, Oregon"); ("lat", JStr "45.52");
     ("lon", JStr "-122.67"); ("importance", JFloat "0.7")] []).
  reflexivity.
Defined.

(** X4.  When Nominatim answers with a JSON object that is not empty (an
    error document, say), [geocode_location] raises after its request: the
    object has no element [0], and nothing in the function catches that. *)
Theorem geocode_raises_on_object :
  forall (svc : Tools.Services) (lib : PyLib) (data : json)
         (h : list Tools.request) (response : Tools.reply)
         (kv : string * json) (rest : dict),
    let query := match data with
                 | JObj d => Tools.get_or_none "location" d
                 | _ => data
                 end in
    py_truthy query = true ->
    Tools.requests_get svc h (Tools.nominatim_url lib query)
      [("User-Agent", "SmartCityAgent")] [] = Ret response ->
    Tools.reply_json response = Ret (JObj (kv :: rest)) ->
    exists e,
      Tools.geocode_location svc lib data h =
      (Raise e, h ++ [nominatim_request lib query]).
Proof.
  intros svc lib data h response kv rest query Hq Hget Hr.
  unfold Tools.geocode_location. fold query. rewrite Hq. cbn [negb].
  unfold Tools.tbind at 1, Tools.do_get at 1. rewrite Hget. cbv beta iota.
  rewrite Hr. cbn [py_truthy dict_truthy negb].
  unfold Tools.tbind, Tools.tlift. cbn [py_index0].
  eexists. reflexivity.
Qed.

Lemma geocode_raises_on_object_witness :
  exists e,
    Tools.geocode_location DemoTools.throttled DemoTools.lib
      (JObj [("location", JStr "Portland")]) [] =
    (Raise e,
     [Tools.Get
        "https://nominatim.openstreetmap.org/search?q=Portland&format=json&limit=1"
        [("User-Agent", "SmartCityAgent")] []]).
Proof.
  apply (geocode_raises_on_object DemoTools.throttled DemoTools.lib
           (JObj [("location", JStr "Portland")]) []
           (Tools.mkReply (Ret tt)
              (Ret (JObj [("error", JStr "Rate limit exceeded")])))
           ("error", JStr "Rate limit exceeded") []);
    reflexivity.
Defined.

(** X5.  A failure of the geocoding step is the result of [get_weather],
    unchanged, and no weather request follows it. *)
Theorem get_weather_geocode_failure :
  forall (svc : Tools.Services) (lib : PyLib) (d : dict)
         (h hg : list Tools.request) (msg : string),
    py_truthy (Tools.get_or_none "location" d) = true ->
    Tools.geocode_location svc lib
      (location_arg (Tools.get_or_none "location" d)) h =
      (Ret (error_dict msg), hg) ->
    Tools.get_weather svc lib (JObj d) h = (Ret (error_dict msg), hg).
Proof.
  intros svc lib d h hg msg Hloc Hg.
  pose proof (get_weather_run svc lib d h) as H. cbv zeta in H.
  destruct (Tools.get_weather svc lib (JObj d) h) as [[v | e] h'].
  - destruct H as [[Hf _] | [_ [g [hg' [Hg' H]]]]].
    + rewrite Hloc in Hf. discriminate Hf.
    + rewrite Hg in Hg'. injection Hg' as <- <-.
      destruct H as [[_ [-> ->]] | [dn [lat [lon [Habs _]]]]].
      * reflexivity.
      * discriminate Habs.
  - destruct H as [_ H]. rewrite Hg in H. discriminate H.
Qed.

Lemma get_weather_geocode_failure_witness :
  Tools.get_weather DemoTools.services DemoTools.lib
    (JObj [("location", JStr "Atlantis")]) [] =
  (Ret (error_dict "Location not found"),
   [Tools.Get
      "https://nominatim.openstreetmap.org/search?q=Atlantis&format=json&limit=1"
      [("User-Agent", "SmartCityAgent")] []]).
Proof.
  apply (get_weather_geocode_failure DemoTools.services DemoTools.lib
           [("location", JStr "Atlantis")] []); reflexivity.
Defined.

(** X6.  On a mapping, [get_weather] raises only when the geocoding step
    raises, and then with the same exception.  Whatever the weather service
    does, a returned result is a failure or a report with exactly the keys
    [location], [temperature_c], [weather], [humidity] and [wind_speed],
    the location being the one asked for. *)
Theorem get_weather_result_shape :
  forall (svc : Tools.Services) (lib : PyLib) (d : dict)
         (h : list Tools.request),
    match Tools.get_weather svc lib (JObj d) h with
    | (Ret v, _) =>
        failure v \/ weather_report (Tools.get_or_none "location" d) v
    | (Raise e, h') =>
        Tools.geocode_location svc lib
          (location_arg (Tools.get_or_none "location" d)) h = (Raise e, h')
    end.
Proof.
  intros svc lib d h.
  pose proof (get_weather_run svc lib d h) as H. cbv zeta in H.
  destruct (Tools.get_weather svc lib (JObj d) h) as [[v | e] h'].
  - destruct H as [[_ [-> _]] | [_ [g [hg [_ H]]]]].
    + left. eexists. reflexivity.
    + destruct H as [[Hf [-> _]] | [dn [lat [lon [_ [_ H]]]]]].
      * left. exact Hf.
      * exact H.
  - destruct H as [_ H]. exact H.
Qed.

(** X7.  After a successful geocoding, [get_weather] sends exactly one more
    request: to OpenWeather, with the coordinates just found, the key from
    the environment and metric units. *)
Theorem get_weather_request :
  forall (svc : Tools.Services) (lib : PyLib) (d : dict)
         (h hg : list Tools.request) (display_name lat lon : json),
    py_truthy (Tools.get_or_none "location" d) = true ->
    Tools.geocode_location svc lib
      (location_arg (Tools.get_or_none "location" d)) h =
      (Ret (JObj [("display_name", display_name); ("lat", lat); ("lon", lon)]),
       hg) ->
    snd (Tools.get_weather svc lib (JObj d) h) =
    hg ++ [Tools.Get "https://api.openweathermap.org/data/2.5/weather" []
             [("lat", lat); ("lon", lon);
              ("appid", Tools.env_json (Tools.OPENWEATHER_API_KEY svc));
              ("units", JStr "metric")]].
Proof.
  intros svc lib d h hg dn lat lon Hloc Hg.
  pose proof (get_weather_run svc lib d h) as H. cbv zeta in H.
  destruct (Tools.get_weather svc lib (JObj d) h) as [[v | e] h']; simpl snd.
  - destruct H as [[Hf _] | [_ [g [hg' [Hg' H]]]]].
    + rewrite Hloc in Hf. discriminate Hf.
    + rewrite Hg in Hg'. injection Hg' as <- <-.
      destruct H as [[[m Hm] _] | [dn' [lat' [lon' [E [-> _]]]]]].
      * discriminate Hm.
      * injection E as <- <- <-. reflexivity.
  - destruct H as [_ H]. rewrite Hg in H. discriminate H.
Qed.

Lemma get_weather_request_witness :
  snd (Tools.get_weather DemoTools.services DemoTools.lib
         (JObj [("location", JStr "Portland")]) []) =
  [Tools.Get
     "https://nominatim.openstreetmap.org/search?q=Portland&format=json&limit=1"
     [("User-Agent", "SmartCityAgent")] [];
   Tools.Get "https://api.openweathermap.org/data/2.5/weather" []
     [("lat", JStr "45.52"); ("lon", JStr "-122.67");
      ("appid", JStr "weather-key"); ("units", JStr "metric")]].
Proof.
  apply (get_weather_request DemoTools.services DemoTools.lib
           [("location", JStr "Portland")] []
           [Tools.Get
              "https://nominatim.openstreetmap.org/search?q=Portland&format=json&limit=1"
              [("User-Agent", "SmartCityAgent")] []]
           (JStr "Portland, Oregon") (JStr "45.52") (JStr "-122.67"));
    reflexivity.
Defined.

(** X8.  [search_places] checks its input before anything is sent: a falsy
    [query] or [location] gives ["Both 'query' and 'location' are
    required"]; with both present, a Yelp key that is unset or empty gives
    ["YELP_API_KEY not found in environment variables"]; in both cases the
    log of requests is unchanged. *)
Theorem search_places_validation :
  forall (svc : Tools.Services) (lib : PyLib) (d : dict)
         (h : list Tools.request),
    (py_truthy (Tools.get_or_none "query" d) = false \/
     py_truthy (Tools.get_or_none "location" d) = false ->
     Tools.search_places svc lib (JObj d) h =
     (Ret (error_dict "Both 'query' and 'location' are required"), h)) /\
    (py_truthy (Tools.get_or_none "query" d) = true ->
     py_truthy (Tools.get_or_none "location" d) = true ->
     Tools.env_truthy (Tools.YELP_API_KEY svc) = false ->
     Tools.search_places svc lib (JObj d) h =
     (Ret (error_dict "YELP_API_KEY not found in environment variables"), h)).
Proof.
  intros svc lib d h.
  pose proof (search_places_run svc lib d h) as H. cbv zeta in H.
  destruct (Tools.search_places svc lib (JObj d) h) as [[v | e] h'].
  - split.
    + intros Hfalsy.
      destruct H as [[_ [-> ->]] | [[Hq [Hl _]] | [Hq [Hl _]]]];
        [reflexivity | |];
        destruct Hfalsy as [Hf | Hf];
        rewrite Hf in *; discriminate.
    + intros Hq Hl Hk.
      destruct H as [[[Hf | Hf] _] | [[_ [_ [_ [-> ->]]]] | [_ [_ [Hk' _]]]]].
      * rewrite Hq in Hf. discriminate Hf.
      * rewrite Hl in Hf. discriminate Hf.
      * reflexivity.
      * rewrite Hk in Hk'. discriminate Hk'.
  - destruct H as [Hq [Hl [Hk _]]]. split.
    + intros [Hf | Hf]; rewrite Hf in *; discriminate.
    + intros _ _ Hk'. rewrite Hk in Hk'. discriminate Hk'.
Qed.

(** X9.  On a mapping, [search_places] raises only when the geocoding step
    raises.  A returned result is a failure or the mapping
    [{"results": [...]}] whose entries all have exactly the keys [name],
    [rating], [address], [phone] and [url], the address being a string. *)
Theorem search_places_result_shape :
  forall (svc : Tools.Services) (lib : PyLib) (d : dict)
         (h : list Tools.request),
    match Tools.search_places svc lib (JObj d) h with
    | (Ret v, _) => failure v \/ places_payload v
    | (Raise e, h') =>
        Tools.geocode_location svc lib
          (location_arg (Tools.get_or_none "location" d)) h = (Raise e, h')
    end.
Proof.
  intros svc lib d h.
  pose proof (search_places_run svc lib d h) as H. cbv zeta in H.
  destruct (Tools.search_places svc lib (JObj d) h) as [[v | e] h'].
  - destruct H as [[_ [-> _]] | [[_ [_ [_ [-> _]]]] | [_ [_ [_ H]]]]].
    + left. eexists. reflexivity.
    + left. eexists. reflexivity.
    + destruct H as [g [hg [_ [[Hf [-> _]] | [dn [lat [lon [_ [_ H]]]]]]]]].
      * left. exact Hf.
      * exact H.
  - destruct H as [_ [_ [_ H]]]. exact H.
Qed.

(** X10.  On a mapping, [translate_text] never raises.  With a falsy [text]
    or [target_lang] it answers ["Both 'text' and 'target_lang' are
    required"] and sends nothing.  Otherwise it sends exactly one request,
    the prompt to the model, and answers [{"translated_text": t}], [t]
    being the text of the model's response with the whitespace at its ends
    removed; when the call to the model, or reading the text of its
    response, raises [e], it answers [{"error": str(e)}]. *)
Theorem translate_text_total :
  forall (svc : Tools.Services) (lib : PyLib) (d : dict)
         (h : list Tools.request),
    Tools.translate_text svc lib (JObj d) h =
    if andb (py_truthy (Tools.get_or_none "text" d))
            (py_truthy (Tools.get_or_none "target_lang" d))
    then
      (Ret match Tools.gemini svc h "gemini-2.0-flash"
                   (Tools.translation_prompt lib
                      (Tools.get_or_none "text" d)
                      (Tools.get_or_none "target_lang" d)) with
           | Ret response =>
               match text response with
               | Ret t => JObj [("translated_text", JStr (py_strip t))]
               | Raise e => JObj [("error", JStr (str_exn lib e))]
               end
           | Raise e => JObj [("error", JStr (str_exn lib e))]
           end,
       h ++ [Tools.Generate "gemini-2.0-flash"
               (Tools.translation_prompt lib
                  (Tools.get_or_none "text" d)
                  (Tools.get_or_none "target_lang" d))])
    else
      (Ret (JObj [("error",
                   JStr "Both 'text' and 'target_lang' are required")]), h).
Proof.
  intros svc lib d h. unfold Tools.translate_text.
  unfold Tools.tbind at 1, Tools.tlift at 1. rewrite py_get_obj.
  unfold Tools.tbind at 1, Tools.tlift at 1. rewrite py_get_obj.
  destruct (py_truthy (Tools.get_or_none "text" d)); cbn [negb orb andb];
    [|reflexivity].
  destruct (py_truthy (Tools.get_or_none "target_lang" d)); cbn [negb];
    [|reflexivity].
  unfold Tools.ttry, Tools.tbind, Tools.tlift, Tools.tret, Tools.do_gemini.
  destruct (Tools.gemini svc h "gemini-2.0-flash" _) as [response | e];
    [|reflexivity].
  destruct (text response); reflexivity.
Qed.

(** ** More on [run_agent] *)

Lemma target_lang_not_empty (q : string) : is_empty (target_lang q) = false.
Proof.
  rewrite target_lang_index.
  destruct (index "to" (py_split (py_lower q))) as [i|]; [|reflexivity].
  destruct (nth_error (py_split (py_lower q)) (i + 1)) as [t|] eqn:Et;
    [|reflexivity].
  pose proof (py_split_tokens (py_lower q)) as Htok.
  rewrite Forall_forall in Htok.
  exact (proj2 (Htok t (nth_error_In _ _ Et))).
Qed.

(** X11.  The target language sent to the translation tool is always a
    token: it is not empty and has no whitespace. *)
Theorem target_lang_token : forall q : string, token (target_lang q).
Proof.
  intros q. rewrite target_lang_index.
  assert (Hhindi : token "hindi").
  { split; [|reflexivity]. repeat (split; [reflexivity|]). exact I. }
  destruct (index "to" (py_split (py_lower q))) as [i|]; [|exact Hhindi].
  destruct (nth_error (py_split (py_lower q)) (i + 1)) as [t|] eqn:Et;
    [|exact Hhindi].
  pose proof (py_split_tokens (py_lower q)) as Htok.
  rewrite Forall_forall in Htok. apply Htok. exact (nth_error_In _ _ Et).
Qed.

(** X12.  What the agent posts to the translation tool and what
    [translate_text] does with it: for a name that is truthy the tool
    passes its validation, whatever the query was, and sends the model the
    prompt built from that name and the extracted target; for a name that
    is falsy (an empty string, say) it answers its validation failure and
    sends nothing. *)
Theorem chained_payload_at_the_tool :
  forall (svc : Tools.Services) (lib : PyLib) (q : string) (n : json)
         (h : list Tools.request),
    (py_truthy n = true ->
     snd (Tools.translate_text svc lib (translate_payload n (target_lang q)) h)
     = h ++ [Tools.Generate "gemini-2.0-flash"
               (Tools.translation_prompt lib n (JStr (target_lang q)))]) /\
    (py_truthy n = false ->
     Tools.translate_text svc lib (translate_payload n (target_lang q)) h =
     (Ret (error_dict "Both 'text' and 'target_lang' are required"), h)).
Proof.
  intros svc lib q n h.
  pose proof (translate_text_run svc lib
                [("text", n); ("target_lang", JStr (target_lang q))] h) as H.
  cbv zeta in H.
  change (Tools.get_or_none "text"
            [("text", n); ("target_lang", JStr (target_lang q))]) with n in H.
  change (Tools.get_or_none "target_lang"
            [("text", n); ("target_lang", JStr (target_lang q))])
    with (JStr (target_lang q)) in H.
  assert (Ht : py_truthy (JStr (target_lang q)) = true).
  { simpl. rewrite (target_lang_not_empty q). reflexivity. }
  unfold translate_payload.
  destruct (Tools.translate_text svc lib
              (JObj [("text", n); ("target_lang", JStr (target_lang q))]) h)
    as [[v | e] h']; [|contradiction].
  split.
  - intros Hn. destruct H as [[[Hf | Hf] _] | [_ [_ [-> _]]]].
    + rewrite Hn in Hf. discriminate Hf.
    + rewrite Ht in Hf. discriminate Hf.
    + reflexivity.
  - intros Hn. destruct H as [[_ [-> ->]] | [Hf _]].
    + reflexivity.
    + rewrite Hn in Hf. discriminate Hf.
Qed.

(** X13.  The first model call is not guarded: when it raises, or when its
    answer has no candidate, [run_agent] raises, having asked the model
    once and called no tool; the attribute is left as it was. *)
Theorem run_agent_model_failure :
  forall (w : World) (lib : PyLib) (q : string) (s : state),
    (forall e,
        generate_content w (calls s) TOOLS q = Raise e ->
        run_agent w lib q s =
        (Raise e, mkState (calls s ++ [EvGenerate q]) (last_tool_output s))) /\
    (forall resp,
        generate_content w (calls s) TOOLS q = Ret resp ->
        candidates resp = [] ->
        run_agent w lib q s =
        (Raise (RuntimeFault NoCandidate),
         mkState (calls s ++ [EvGenerate q]) (last_tool_output s))).
Proof.
  intros w lib q s. split.
  - intros e He. unfold run_agent, bind, do_generate. rewrite He. reflexivity.
  - intros resp Hr Hc. unfold run_agent.
    unfold bind at 1, do_generate at 1. rewrite Hr.
    unfold bind at 1, lift at 1. unfold first_parts. rewrite Hc. reflexivity.
Qed.

(** ** Runs in which every invocation succeeds *)

Lemma primary_loop_all_ok (w : World) (lib : PyLib) :
  forall (parts : list part) (acc : dict) (tr : trace) (l : option dict),
    forallb has_args parts = true ->
    (forall before fn after,
        invocations parts = before ++ fn :: after ->
        py_in "error" (output_after w lib tr before fn) = Ret false) ->
    primary_loop w lib parts acc (mkState tr l) =
    (Ret (inr (stored w lib tr (invocations parts) acc)),
     mkState (tr ++ map (invocation_event w) (invocations parts)) l).
Proof.
  induction parts as [|p rest IH]; intros acc tr l Hargs Hok.
  - simpl. unfold ret. rewrite app_nil_r. reflexivity.
  - simpl forallb in Hargs. apply andb_true_iff in Hargs.
    destruct Hargs as [Hp0 Hargs]. unfold has_args in Hp0.
    simpl invocations in *. destruct (kind p) as [ | | fn] eqn:Hp.
    + rewrite (primary_loop_skip w lib p rest acc Hp). apply IH; assumption.
    + discriminate Hp0.
    + rewrite (primary_loop_step_ok w lib p fn rest acc tr l Hp
                 (Hok [] fn (invocations rest) eq_refl)).
      rewrite IH.
      * simpl. rewrite <- app_assoc. reflexivity.
      * exact Hargs.
      * intros before g after E. rewrite output_after_cons.
        apply (Hok (fn :: before) g after). rewrite E. reflexivity.
Qed.

Lemma dict_get_set_other (k k' : string) (v : json) (d : dict) :
  k <> k' -> dict_get k (dict_set k' v d) = dict_get k d.
Proof.
  intros Hne. induction d as [|[k0 v0] r IH]; simpl.
  - destruct (String.eqb k k') eqn:E; [|reflexivity].
    apply String.eqb_eq in E. contradiction.
  - destruct (String.eqb k' k0) eqn:E0; simpl.
    + apply String.eqb_eq in E0. subst k0.
      destruct (String.eqb k k') eqn:E; [|reflexivity].
      apply String.eqb_eq in E. contradiction.
    + destruct (String.eqb k k0); [reflexivity | exact IH].
Qed.

Lemma stored_get_other (w : World) (lib : PyLib) (k : string) :
  forall (fns : list fcall) (tr : trace) (acc : dict),
    (forall g, In g fns -> fc_name g <> k) ->
    dict_get k (stored w lib tr fns acc) = dict_get k acc.
Proof.
  induction fns as [|fn rest IH]; intros tr acc Hne; simpl; [reflexivity|].
  rewrite IH.
  - apply dict_get_set_other. intros E. apply (Hne fn (or_introl eq_refl)).
    symmetry. exact E.
  - intros g Hg. apply Hne. right. exact Hg.
Qed.

Lemma stored_app (w : World) (lib : PyLib) :
  forall (a b : list fcall) (tr : trace) (acc : dict),
    stored w lib tr (a ++ b) acc =
    stored w lib (tr ++ map (invocation_event w) a) b (stored w lib tr a acc).
Proof.
  induction a as [|fn a IH]; intros b tr acc; simpl.
  - rewrite app_nil_r. reflexivity.
  - rewrite IH. rewrite <- app_assoc. reflexivity.
Qed.

Lemma stored_truthy (w : World) (lib : PyLib) :
  forall (fns : list fcall) (tr : trace) (acc : dict),
    dict_truthy acc = true -> dict_truthy (stored w lib tr fns acc) = true.
Proof.
  induction fns as [|fn rest IH]; intros tr acc H; simpl; [exact H|].
  apply IH. apply dict_set_truthy.
Qed.

Lemma respond_plain (w : World) (lib : PyLib) (q : string)
    (all_results : dict) (s : state) :
  chain_trigger q all_results = false ->
  dict_truthy all_results = true ->
  respond w lib q all_results s =
  (Ret (json_dumps lib (JObj all_results)),
   mkState (calls s) (Some all_results)).
Proof.
  intros Htrig Htruthy. unfold respond. rewrite Htrig.
  unfold bind at 1, ret at 1. rewrite Htruthy. reflexivity.
Qed.

(** X14.  When the model proposes at least one invocation, every proposed
    call carries its arguments, none of the invocations fails, and the
    guard of the chaining does not hold, the answer is the
    serialisation of the results keyed by tool name; every proposed
    invocation has been made, in order, and nothing else; the results are
    kept in [run_agent.last_tool_output]. *)
Theorem structured_answer :
  forall (w : World) (lib : PyLib) (q : string) (s : state)
         (resp : model_response) (parts : list part),
    generate_content w (calls s) TOOLS q = Ret resp ->
    first_parts resp = Ret parts ->
    forallb has_args parts = true ->
    invocations parts <> [] ->
    (forall before fn after,
        invocations parts = before ++ fn :: after ->
        py_in "error"
          (output_after w lib (calls s ++ [EvGenerate q]) before fn)
        = Ret false) ->
    chain_trigger q
      (stored w lib (calls s ++ [EvGenerate q]) (invocations parts) []) = false ->
    run_agent w lib q s =
    (Ret (json_dumps lib
            (JObj (stored w lib (calls s ++ [EvGenerate q])
                     (invocations parts) []))),
     mkState
       (calls s ++ EvGenerate q :: map (invocation_event w) (invocations parts))
       (Some (stored w lib (calls s ++ [EvGenerate q]) (invocations parts) []))).
Proof.
  intros w lib q s resp parts Hgen Hparts Hargs Hne Hok Htrig.
  rewrite (run_agent_unfold w lib q s resp parts Hgen Hparts).
  rewrite (primary_loop_all_ok w lib parts [] _ _ Hargs Hok).
  rewrite (respond_plain w lib q _ _ Htrig).
  - simpl calls. rewrite <- app_assoc. reflexivity.
  - destruct (invocations parts) as [|fn rest]; [contradiction|].
    simpl. apply stored_truthy. reflexivity.
Qed.

Lemma structured_answer_witness :
  run_agent Demo.world Demo.lib "coffee near PSU" Demo.fresh =
  (Ret (json_dumps Demo.lib (JObj Demo.found)),
   mkState
     [EvGenerate "coffee near PSU";
      EvPost "http://127.0.0.1:8080/tool/search_places"
        (JObj [("query", JStr "coffee"); ("location", JStr "PSU")])]
     (Some Demo.found)).
Proof.
  apply (structured_answer Demo.world Demo.lib "coffee near PSU" Demo.fresh
           (mkResponse
              [[call_part "search_places"
                  [("query", JStr "coffee"); ("location", JStr "PSU")]]]
              (Raise (ExternalError "no text part")))
           [call_part "search_places"
              [("query", JStr "coffee"); ("location", JStr "PSU")]]).
  - reflexivity.
  - reflexivity.
  - reflexivity.
  - discriminate.
  - intros [|b before] fn after H.
    + injection H as <- _. reflexivity.
    + destruct before; discriminate H.
  - reflexivity.
Defined.

(** X15.  Results are keyed by tool name and a later result replaces an
    earlier one of the same tool: after a loop in which every call carried
    its arguments and nothing failed, the entry of a tool is the output of
    the last invocation that named it. *)
Theorem last_result_wins :
  forall (w : World) (lib : PyLib) (parts : list part) (tr : trace)
         (l : option dict) (before : list fcall) (fn : fcall)
         (after : list fcall),
    forallb has_args parts = true ->
    (forall b g a,
        invocations parts = b ++ g :: a ->
        py_in "error" (output_after w lib tr b g) = Ret false) ->
    invocations parts = before ++ fn :: after ->
    (forall g, In g after -> fc_name g <> fc_name fn) ->
    exists d,
      fst (primary_loop w lib parts [] (mkState tr l)) = Ret (inr d) /\
      dict_get (fc_name fn) d = Some (output_after w lib tr before fn).
Proof.
  intros w lib parts tr l before fn after Hargs Hok Hinv Hlast.
  rewrite (primary_loop_all_ok w lib parts [] tr l Hargs Hok).
  eexists. split; [reflexivity|].
  rewrite Hinv, stored_app. simpl stored.
  rewrite (stored_get_other w lib (fc_name fn) after _ _ Hlast).
  rewrite dict_get_set_same. unfold output_after. simpl map.
  rewrite app_nil_r. reflexivity.
Qed.

Lemma last_result_wins_witness :
  exists d,
    fst (primary_loop Demo.world Demo.lib
           [call_part "translate_text" [("text", JStr "Coava")];
            call_part "geocode_location" [];
            call_part "translate_text" [("text", JStr "Stumptown")]]
           [] Demo.fresh) = Ret (inr d) /\
    dict_get "translate_text" d =
      Some (JObj [("translated_text", JStr "anuvad")]).
Proof.
  apply (last_result_wins Demo.world Demo.lib
           [call_part "translate_text" [("text", JStr "Coava")];
            call_part "geocode_location" [];
            call_part "translate_text" [("text", JStr "Stumptown")]]
           [] None
           [mkCall "translate_text" [("text", JStr "Coava")];
            mkCall "geocode_location" []]
           (mkCall "translate_text" [("text", JStr "Stumptown")]) []).
  - reflexivity.
  - intros b g a H.
    destruct b as [|b0 [|b1 [|b2 b]]]; simpl in H.
    + injection H as <- _. reflexivity.
    + injection H as _ <- _. reflexivity.
    + injection H as _ _ <- _. reflexivity.
    + injection H as _ _ _ H. destruct b; discriminate H.
  - reflexivity.
  - intros g [].
Defined.

(** ** Answers outside the tool interface *)

Lemma primary_loop_prefix (w : World) (lib : PyLib) (fk : fcall)
    (post : list fcall) :
  forall (parts : list part) (pre : list fcall) (acc : dict) (tr : trace)
         (l : option dict),
    invocations parts = pre ++ fk :: post ->
    (forall before fn after,
        pre = before ++ fn :: after ->
        py_in "error" (output_after w lib tr before fn) = Ret false) ->
    exists p rest acc',
      kind p = Call fk /\
      primary_loop w lib parts acc (mkState tr l) =
      primary_loop w lib (p :: rest) acc'
        (mkState (tr ++ map (invocation_event w) pre) l).
Proof.
  induction parts as [|p rest IH]; intros pre acc tr l Hinv Hpre.
  - simpl in Hinv. destruct pre; discriminate.
  - simpl in Hinv. destruct (kind p) as [ | | fn] eqn:Hp.
    3:{ destruct pre as [|f pre'].
      * simpl in Hinv. injection Hinv as -> _.
        exists p, rest, acc. split; [exact Hp|].
        simpl map. rewrite app_nil_r. reflexivity.
      * simpl in Hinv. injection Hinv as -> Hrest.
        rewrite (primary_loop_step_ok w lib p f rest acc tr l Hp
                   (Hpre [] f pre' eq_refl)).
        destruct (IH pre' (dict_set (fc_name f)
                             (output_after w lib tr [] f) acc)
                    (tr ++ [invocation_event w f]) l Hrest)
          as [p' [rest' [acc' [Hp' Hrun]]]].
        { intros before fn after E. rewrite output_after_cons.
          apply (Hpre (f :: before) fn after). rewrite E. reflexivity. }
        exists p', rest', acc'. split; [exact Hp'|].
        rewrite Hrun. simpl map. rewrite <- app_assoc. reflexivity. }
    + destruct (IH pre acc tr l Hinv Hpre) as [p' [rest' [acc' [Hp' Hrun]]]].
      exists p', rest', acc'. split; [exact Hp'|].
      rewrite (primary_loop_skip w lib p rest acc Hp). exact Hrun.
    + destruct pre; discriminate Hinv.
Qed.

Lemma primary_loop_step_raise (w : World) (lib : PyLib) (p : part)
    (fn : fcall) (rest : list part) (acc : dict) (tr : trace)
    (l : option dict) :
  kind p = Call fn ->
  (forall d, output_after w lib tr [] fn <> JObj d) ->
  py_in "error" (output_after w lib tr [] fn) <> Ret false ->
  exists e,
    primary_loop w lib (p :: rest) acc (mkState tr l) =
    (Raise e, mkState (tr ++ [invocation_event w fn]) l).
Proof.
  intros Hp Hobj Hin. rewrite (primary_loop_call w lib p fn rest acc Hp).
  unfold bind at 1. rewrite call_tool_run. simpl calls. simpl last_tool_output.
  unfold output_after in Hobj, Hin. simpl map in Hobj, Hin.
  rewrite app_nil_r in Hobj, Hin.
  fold (invocation_event w fn).
  destruct (tool_result w lib tr (fc_name fn) (JObj (fc_args fn))) as
    [ | b | z | r | str | items | d ];
    unfold bind, lift; cbn [py_in] in *;
    try (eexists; reflexivity).
  - destruct (contains "error" str); [|contradiction].
    eexists. reflexivity.
  - destruct (existsb (is_JStr "error") items); [|contradiction].
    eexists. reflexivity.
  - exfalso. exact (Hobj d eq_refl).
Qed.

(** X16.  An answer to a proposed invocation that is JSON but not a
    mapping, and does not pass for a success (a list or a string in which
    ["error"] does not occur passes), makes [run_agent] raise: after the
    invocations before it and its own, with no later invocation made and
    nothing kept. *)
Theorem malformed_answer_raises :
  forall (w : World) (lib : PyLib) (q : string) (s : state)
         (resp : model_response) (parts : list part)
         (pre : list fcall) (fk : fcall) (post : list fcall),
    generate_content w (calls s) TOOLS q = Ret resp ->
    first_parts resp = Ret parts ->
    invocations parts = pre ++ fk :: post ->
    (forall before fn after,
        pre = before ++ fn :: after ->
        py_in "error"
          (output_after w lib (calls s ++ [EvGenerate q]) before fn)
        = Ret false) ->
    (forall d,
        output_after w lib (calls s ++ [EvGenerate q]) pre fk <> JObj d) ->
    py_in "error" (output_after w lib (calls s ++ [EvGenerate q]) pre fk)
      <> Ret false ->
    exists e,
      run_agent w lib q s =
      (Raise e,
       mkState
         (calls s ++ EvGenerate q :: map (invocation_event w) (pre ++ [fk]))
         (last_tool_output s)).
Proof.
  intros w lib q s resp parts pre fk post Hgen Hparts Hinv Hpre Hobj Hin.
  rewrite (run_agent_unfold w lib q s resp parts Hgen Hparts).
  destruct (primary_loop_prefix w lib fk post parts pre []
              (calls s ++ [EvGenerate q]) (last_tool_output s) Hinv Hpre)
    as [p [rest [acc' [Hp Hrun]]]].
  rewrite Hrun.
  assert (Hout : output_after w lib
                   ((calls s ++ [EvGenerate q]) ++ map (invocation_event w) pre)
                   [] fk =
                 output_after w lib (calls s ++ [EvGenerate q]) pre fk).
  { unfold output_after. simpl map. rewrite app_nil_r. reflexivity. }
  destruct (primary_loop_step_raise w lib p fk rest acc'
              ((calls s ++ [EvGenerate q]) ++ map (invocation_event w) pre)
              (last_tool_output s) Hp) as [e He].
  - rewrite Hout. exact Hobj.
  - rewrite Hout. exact Hin.
  - exists e. rewrite He. rewrite map_app. simpl map.
    rewrite <- !app_assoc. reflexivity.
Qed.

Lemma malformed_answer_raises_witness :
  exists e,
    run_agent Odd.world Demo.lib "coffee near PSU" Demo.fresh =
    (Raise e,
     mkState
       [EvGenerate "coffee near PSU";
        EvPost "http://127.0.0.1:8080/tool/search_places"
          (JObj [("query", JStr "coffee"); ("location", JStr "PSU")])]
       None).
Proof.
  apply (malformed_answer_raises Odd.world Demo.lib "coffee near PSU"
           Demo.fresh
           (mkResponse
              [[call_part "search_places"
                  [("query", JStr "coffee"); ("location", JStr "PSU")]]]
              (Raise (ExternalError "no text part")))
           [call_part "search_places"
              [("query", JStr "coffee"); ("location", JStr "PSU")]]
           []
           (mkCall "search_places"
              [("query", JStr "coffee"); ("location", JStr "PSU")])
           []).
  - reflexivity.
  - reflexivity.
  - reflexivity.
  - intros [|b before] fn after H; discriminate H.
  - intros d H. discriminate H.
  - intros H. discriminate H.
Defined.

Lemma comprehension_stops {A B} (f : A -> outcome B) (good : list A)
    (ys : list B) (bad : A) (rest : list A) (e : exn) :
  comprehension f good = Ret ys ->
  f bad = Raise e ->
  comprehension f (good ++ bad :: rest) = Raise e.
Proof.
  revert ys. induction good as [|x good IH]; simpl; intros ys Hgood Hbad.
  - rewrite Hbad. reflexivity.
  - destruct (f x) as [y | e']; [|discriminate Hgood].
    destruct (comprehension f good) as [ys' | e']; [|discriminate Hgood].
    rewrite (IH ys' eq_refl Hbad). reflexivity.
Qed.

(** X17.  When one of the first three entities of the places result is a
    mapping without a ["name"], the chaining raises before any translation
    is requested: no call is made, whatever names the other entities have.
    An entity past the third is never looked at. *)
Theorem unnamed_entity_raises :
  forall (w : World) (lib : PyLib) (q : string) (all_results sp : dict)
         (entities good : list json) (names : list json) (e : dict)
         (rest : list json) (s : state),
    dict_get "search_places" all_results = Some (JObj sp) ->
    dict_get "results" sp = Some (JArr entities) ->
    firstn 3 entities = good ++ JObj e :: rest ->
    Forall2 named good names ->
    dict_get "name" e = None ->
    chain w lib q all_results s = (Raise (RuntimeFault (MissingKey "name")), s).
Proof.
  intros w lib q all_results sp entities good names e rest s
         Hsp Hres Hfirst Hgood He.
  unfold chain.
  unfold bind at 1, lift at 1. simpl py_getitem. rewrite Hsp.
  unfold bind at 1, lift at 1. simpl py_get. rewrite Hres.
  unfold bind at 1, lift at 1.
  change (py_first3 (JArr entities)) with (Ret (firstn 3 entities)).
  cbv beta iota. rewrite Hfirst.
  unfold bind at 1, lift at 1.
  rewrite (comprehension_stops (fun p => py_getitem p "name") good names
             (JObj e) rest (RuntimeFault (MissingKey "name"))
             (comprehension_named good names Hgood)).
  - reflexivity.
  - simpl. rewrite He. reflexivity.
Qed.

Lemma unnamed_entity_raises_witness :
  chain Odd.world Demo.lib Demo.coffee_query Odd.nameless Demo.searched =
  (Raise (RuntimeFault (MissingKey "name")), Demo.searched).
Proof.
  apply (unnamed_entity_raises Odd.world Demo.lib Demo.coffee_query
           Odd.nameless
           [("results",
             JArr [Demo.place "Case Study Coffee" "4.5";
                   JObj [("rating", JFloat "4.4")];
                   Demo.place "Stumptown" "4.3"])]
           [Demo.place "Case Study Coffee" "4.5";
            JObj [("rating", JFloat "4.4")];
            Demo.place "Stumptown" "4.3"]
           [Demo.place "Case Study Coffee" "4.5"]
           [JStr "Case Study Coffee"]
           [("rating", JFloat "4.4")]
           [Demo.place "Stumptown" "4.3"]).
  - reflexivity.
  - reflexivity.
  - reflexivity.
  - constructor; [|constructor]. eexists. split; reflexivity.
  - reflexivity.
Defined.

Lemma translate_loop_stops (w : World) (lib : PyLib) (target : string)
    (n : json) (after : list json) (v : json) :
  forall (before : list json) (acc : list json) (tr : trace)
         (l : option dict),
    answers_ok w lib target tr before ->
    tool_result w lib (tr ++ map (translate_event w target) before)
      "translate_text" (translate_payload n target) = v ->
    (forall d, v <> JObj d) ->
    translate_loop w lib target (before ++ n :: after) acc (mkState tr l) =
    (Raise (RuntimeFault (NoAttribute v "get")),
     mkState (tr ++ map (translate_event w target) (before ++ [n])) l).
Proof.
  induction before as [|b before IH]; intros acc tr l Hok Hv Hobj.
  - simpl app. simpl translate_loop.
    unfold bind at 1. rewrite call_tool_run. simpl calls. simpl last_tool_output.
    simpl map in Hv. rewrite app_nil_r in Hv. rewrite Hv.
    unfold bind, lift.
    destruct v; cbn [py_get]; try reflexivity.
    exfalso. exact (Hobj d eq_refl).
  - destruct Hok as [Hb Hrest]. simpl app. simpl translate_loop.
    unfold bind at 1. rewrite call_tool_run. simpl calls. simpl last_tool_output.
    unfold bind at 1, lift at 1.
    rewrite (py_get_object _ "translated_text" (JStr "[error]") Hb).
    fold (translate_event w target b).
    rewrite (IH _ (tr ++ [translate_event w target b]) l Hrest).
    + simpl map. rewrite <- app_assoc. reflexivity.
    + simpl map in Hv. rewrite <- app_assoc. exact Hv.
    + exact Hobj.
Qed.

(** X18.  An answer of the translation tool that is JSON but not a mapping
    is not degraded to ["[error]"]: the chaining raises at that name.  The
    names before it have been translated, the names after it are never
    sent, and no ["translations"] entry comes into being. *)
Theorem translation_answer_not_a_mapping :
  forall (w : World) (lib : PyLib) (q : string) (all_results sp : dict)
         (entities before : list json) (n : json) (after : list json)
         (v : json) (s : state),
    dict_get "search_places" all_results = Some (JObj sp) ->
    dict_get "results" sp = Some (JArr entities) ->
    Forall2 named (firstn 3 entities) (before ++ n :: after) ->
    answers_ok w lib (target_lang q) (calls s) before ->
    tool_result w lib
      (calls s ++ map (translate_event w (target_lang q)) before)
      "translate_text" (translate_payload n (target_lang q)) = v ->
    (forall d, v <> JObj d) ->
    chain w lib q all_results s =
    (Raise (RuntimeFault (NoAttribute v "get")),
     mkState
       (calls s ++ map (translate_event w (target_lang q)) (before ++ [n]))
       (last_tool_output s)).
Proof.
  intros w lib q all_results sp entities before n after v s
         Hsp Hres Hnamed Hok Hv Hobj.
  unfold chain.
  unfold bind at 1, lift at 1. simpl py_getitem. rewrite Hsp.
  unfold bind at 1, lift at 1. simpl py_get. rewrite Hres.
  unfold bind at 1, lift at 1.
  change (py_first3 (JArr entities)) with (Ret (firstn 3 entities)).
  cbv beta iota.
  unfold bind at 1, lift at 1. rewrite (comprehension_named _ _ Hnamed).
  unfold bind at 1. destruct s as [tr l]. simpl calls in *.
  simpl last_tool_output.
  rewrite (translate_loop_stops w lib (target_lang q) n after v before []
             tr l Hok Hv Hobj).
  reflexivity.
Qed.

Lemma translation_answer_not_a_mapping_witness :
  chain Odd.world Demo.lib Demo.coffee_query Demo.found Demo.searched =
  (Raise (RuntimeFault (NoAttribute JNull "get")),
   mkState
     (calls Demo.searched ++
      [EvPost "http://127.0.0.1:8080/tool/translate_text"
         (JObj [("text", JStr "Case Study Coffee");
                ("target_lang", JStr "hindi")])])
     None).
Proof.
  apply (translation_answer_not_a_mapping Odd.world Demo.lib Demo.coffee_query
           Demo.found [("results", JArr Demo.found_places)] Demo.found_places
           [] (JStr "Case Study Coffee")
           [JStr "Heart Coffee"; JStr "Stumptown"] JNull Demo.searched).
  - reflexivity.
  - reflexivity.
  - exact demo_found_named.
  - exact I.
  - reflexivity.
  - intros d H. discriminate H.
Defined.

(** ** The entry point and the command line *)

(** X19.  A request that carries no usable question never reaches the
    agent: nothing is sent and nothing is kept.  A question that is missing
    or blank is answered with status 400; a request document that is not a
    mapping, or a question that is not a string, with status 500 and the
    text of the exception. *)
Theorem ask_rejects_before_the_agent :
  forall (w : World) (lib : PyLib) (s : state),
    (forall d,
        dict_get "question" d = None \/
        (exists q, dict_get "question" d = Some (JStr q) /\
                   py_strip q = EmptyString) ->
        ask w lib (Ret (JObj d)) s =
        (Ret (JObj [("error", JStr "Question cannot be empty")], 400%Z), s)) /\
    (forall v,
        (forall d, v <> JObj d) ->
        ask w lib (Ret v) s =
        (Ret (JObj [("error",
                     JStr (str_exn lib (RuntimeFault (NoAttribute v "get"))))],
              500%Z), s)) /\
    (forall d x,
        dict_get "question" d = Some x ->
        (forall q, x <> JStr q) ->
        ask w lib (Ret (JObj d)) s =
        (Ret (JObj [("error",
                     JStr (str_exn lib (RuntimeFault (NoAttribute x "strip"))))],
              500%Z), s)).
Proof.
  intros w lib s. split; [|split].
  - intros d H. unfold ask, try_except, bind, lift. cbn [py_get].
    destruct H as [H | [q [H Hq]]]; rewrite H; cbn [py_strip_method].
    + reflexivity.
    + rewrite Hq. reflexivity.
  - intros v Hv. unfold ask, try_except, bind, lift.
    destruct v; cbn [py_get]; try reflexivity.
    exfalso. exact (Hv d eq_refl).
  - intros d x Hx Hstr. unfold ask, try_except, bind, lift. cbn [py_get].
    rewrite Hx.
    destruct x; cbn [py_strip_method]; try reflexivity.
    exfalso. exact (Hstr s0 eq_refl).
Qed.

(** X20.  The command-line loop stops at the first line that lower-cases to
    ["quit"] or ["exit"]: the lines after it are never read, and the loop
    does not run into the end of the input. *)
Theorem cli_stops_at_quit :
  forall (w : World) (lib : PyLib) (pre : list string) (stop : string)
         (post : list string) (s : state),
    is_stop stop = true ->
    cli_loop w lib (pre ++ stop :: post) s = cli_loop w lib (pre ++ [stop]) s /\
    snd (fst (cli_loop w lib (pre ++ stop :: post) s)) <> EndOfInput.
Proof.
  intros w lib pre stop post. induction pre as [|q pre IH]; intros s Hstop.
  - simpl. rewrite Hstop. split; [reflexivity | discriminate].
  - simpl. destruct (is_stop q); [split; [reflexivity | discriminate]|].
    destruct (run_agent w lib q s) as [[answer | e] s'].
    + destruct (IH s' Hstop) as [Heq Hend]. rewrite Heq in *.
      destruct (cli_loop w lib (pre ++ [stop]) s') as [[printed fin] s''].
      split; [reflexivity | exact Hend].
    + split; [reflexivity | discriminate].
Qed.

Lemma cli_stops_at_quit_witness :
  cli_loop Demo.world Demo.lib (["weather in Atlantis"] ++ "QUIT" :: ["hi"])
    Demo.fresh =
  cli_loop Demo.world Demo.lib (["weather in Atlantis"] ++ ["QUIT"])
    Demo.fresh /\
  snd (fst (cli_loop Demo.world Demo.lib
              (["weather in Atlantis"] ++ "QUIT" :: ["hi"]) Demo.fresh))
    <> EndOfInput.
Proof.
  apply (cli_stops_at_quit Demo.world Demo.lib ["weather in Atlantis"] "QUIT"
           ["hi"] Demo.fresh).
  reflexivity.
Defined.

(** ** The agent in front of a peer that keeps the tool interface *)

Lemma dict_has_get (k : string) (d : dict) :
  dict_has k d = false -> dict_get k d = None.
Proof. unfold dict_has. destruct (dict_get k d); [discriminate | reflexivity]. Qed.

Lemma primary_loop_total (w : World) (lib : PyLib) :
  keeps_interface w lib ->
  forall (parts : list part) (acc : dict) (tr : trace) (l : option dict),
    forallb has_args parts = true ->
    places_inv acc ->
    exists r s',
      primary_loop w lib parts acc (mkState tr l) = (Ret r, s') /\
      match r with
      | inl _ => True
      | inr acc' => places_inv acc'
      end.
Proof.
  intros [Hobj Hplaces].
  induction parts as [|p rest IH]; intros acc tr l Hargs Hinv.
  - exists (inr acc), (mkState tr l). split; [reflexivity | exact Hinv].
  - simpl forallb in Hargs. apply andb_true_iff in Hargs.
    destruct Hargs as [Hp0 Hargs]. unfold has_args in Hp0.
    destruct (kind p) as [ | | fn] eqn:Hp; [|discriminate Hp0|].
    { rewrite (primary_loop_skip w lib p rest acc Hp). apply IH; assumption. }
    rewrite (primary_loop_call w lib p fn rest acc Hp).
    unfold bind at 1. rewrite call_tool_run. simpl calls. simpl last_tool_output.
    destruct (Hobj tr (fc_name fn) (JObj (fc_args fn))) as [d Hd].
    rewrite Hd. unfold bind at 1, lift at 1. cbn [py_in].
    destruct (dict_has "error" d) eqn:Herr.
    + unfold bind, lift, ret. cbn [py_getitem]. unfold dict_has in Herr.
      destruct (dict_get "error" d) as [x|]; [|discriminate Herr].
      eexists. eexists. split; [reflexivity | exact I].
    + apply IH; [exact Hargs|]. intros v Hv.
      destruct (String.eqb "search_places" (fc_name fn)) eqn:E.
      * apply String.eqb_eq in E. rewrite <- E in *.
        rewrite dict_get_set_same in Hv. injection Hv as <-.
        exists d. split; [reflexivity|].
        exact (Hplaces tr (JObj (fc_args fn)) d Hd (dict_has_get _ _ Herr)).
      * apply String.eqb_neq in E.
        rewrite (dict_get_set_other _ _ _ _ E) in Hv. exact (Hinv v Hv).
Qed.

Lemma Forall_first (A : Type) (P : A -> Prop) (n : nat) (l : list A) :
  Forall P l -> Forall P (firstn n l).
Proof.
  intros H. revert n. induction H as [|x l Hx _ IH]; intros [|n]; simpl;
    constructor; [exact Hx | apply IH].
Qed.

Lemma chain_total (w : World) (lib : PyLib) (q : string) (all_results : dict)
    (s : state) :
  keeps_interface w lib ->
  places_inv all_results ->
  dict_has "search_places" all_results = true ->
  exists all' s',
    chain w lib q all_results s = (Ret all', s') /\ dict_truthy all' = true.
Proof.
  intros [Hobj _] Hinv Hhas. unfold dict_has in Hhas.
  destruct (dict_get "search_places" all_results) as [v|] eqn:Hsp;
    [|discriminate Hhas].
  destruct (Hinv v Hsp) as [sp [-> [places [names [Hres Hnames]]]]].
  eexists. eexists. split.
  - apply (chain_run w lib q all_results sp places names s Hsp).
    + exact Hres.
    + exact Hnames.
    + apply answers_objects_ok. intros tr body. apply Hobj.
  - apply dict_set_truthy.
Qed.

(** X21.  In front of a peer that keeps the tool interface (every answer a
    mapping; in a places answer that is not a failure, ["results"] absent
    or a list whose first three entries are mappings with a ["name"], the
    keys in any order), [run_agent] returns a string whenever the first
    model call gave a candidate each of whose parts is skipped or carries
    the arguments of its call: whatever the tools answer, nothing raises. *)
Theorem run_agent_returns :
  forall (w : World) (lib : PyLib) (q : string) (s : state)
         (resp : model_response) (parts : list part),
    keeps_interface w lib ->
    generate_content w (calls s) TOOLS q = Ret resp ->
    first_parts resp = Ret parts ->
    forallb has_args parts = true ->
    exists answer s', run_agent w lib q s = (Ret answer, s').
Proof.
  intros w lib q s resp parts Hkeeps Hgen Hparts Hargs.
  rewrite (run_agent_unfold w lib q s resp parts Hgen Hparts).
  destruct (primary_loop_total w lib Hkeeps parts []
              (calls s ++ [EvGenerate q]) (last_tool_output s) Hargs)
    as [r [s1 [Hrun Hr]]].
  { intros v Hv. discriminate Hv. }
  rewrite Hrun. destruct r as [answer | all_results].
  - exists answer, s1. reflexivity.
  - destruct (chain_trigger q all_results) eqn:Htrig.
    + assert (Hhas : dict_has "search_places" all_results = true).
      { unfold chain_trigger in Htrig. apply andb_true_iff in Htrig.
        exact (proj1 Htrig). }
      destruct (chain_total w lib q all_results s1 Hkeeps Hr Hhas)
        as [all' [s2 [Hchain Htruthy]]].
      rewrite (respond_chained w lib q all_results all' s1 s2
                 Htrig Hchain Htruthy).
      eexists. eexists. reflexivity.
    + destruct (dict_truthy all_results) eqn:Htruthy.
      * rewrite (respond_plain w lib q all_results s1 Htrig Htruthy).
        eexists. eexists. reflexivity.
      * destruct all_results; [|discriminate Htruthy].
        rewrite respond_empty. eexists. eexists. reflexivity.
Qed.

Lemma drop_prefix_app (base p : string) :
  Demo.drop_prefix base (base ++ p)%string = Some p.
Proof.
  induction base as [|c base IH]; simpl; [reflexivity|].
  rewrite Ascii.eqb_refl. exact IH.
Qed.

Lemma demo_tools_object (f : tool_fn) (body : json) :
  is_object (Demo.tools f body).
Proof.
  destruct f; simpl; try (eexists; reflexivity).
  destruct body; try (eexists; reflexivity).
  match goal with |- context [if ?b then _ else _] => destruct b end;
    eexists; reflexivity.
Qed.

Lemma demo_keeps_interface (lib : PyLib) : keeps_interface Demo.world lib.
Proof.
  split.
  - intros tr tool_name body. unfold tool_result, tool_url.
    cbn [Demo.world requests_post MCP_SERVER_URL]. unfold Demo.flask_app.
    rewrite drop_prefix_app.
    destruct (tool_route ("/tool/" ++ tool_name)) as [f|];
      [|eexists; reflexivity].
    cbn [json_body]. apply demo_tools_object.
  - intros tr body d. unfold tool_result, tool_url.
    cbn [Demo.world requests_post MCP_SERVER_URL]. unfold Demo.flask_app.
    rewrite drop_prefix_app.
    change (tool_route ("/tool/" ++ "search_places")) with (Some search_places).
    cbn [json_body]. intros Hd _. injection Hd as <-.
    exists Demo.found_places, Demo.found_names. split; [reflexivity|].
    repeat constructor; eexists; split; reflexivity.
Qed.

Lemma run_agent_returns_witness :
  exists answer s',
    run_agent Demo.world Demo.lib Demo.coffee_query Demo.fresh =
    (Ret answer, s').
Proof.
  apply (run_agent_returns Demo.world Demo.lib Demo.coffee_query Demo.fresh
           (mkResponse
              [[call_part "search_places"
                  [("query", JStr "coffee"); ("location", JStr "PSU")]]]
              (Raise (ExternalError "no text part")))
           [call_part "search_places"
              [("query", JStr "coffee"); ("location", JStr "PSU")]]).
  - apply demo_keeps_interface.
  - reflexivity.
  - reflexivity.
  - reflexivity.
Defined.

(** ** The server of [server.py] keeps the tool interface *)

Lemma failure_object (v : json) : failure v -> is_object v.
Proof. intros [msg ->]. eexists. reflexivity. Qed.

Lemma geocode_object (svc : Tools.Services) (lib : PyLib) (data : json)
    (h : list Tools.request) (v : json) :
  fst (Tools.geocode_location svc lib data h) = Ret v -> is_object v.
Proof.
  intros Hv. pose proof (geocode_run svc lib data h) as H. cbv zeta in H.
  destruct (Tools.geocode_location svc lib data h) as [[v' | e] h'];
    simpl in Hv; [|discriminate Hv].
  injection Hv as ->.
  destruct H as [[_ [-> _]] | [_ [_ [-> | [-> | [dn [lat [lon ->]]]]]]]];
    eexists; reflexivity.
Qed.

Lemma weather_object (svc : Tools.Services) (lib : PyLib) (data : json)
    (h : list Tools.request) (v : json) :
  fst (Tools.get_weather svc lib data h) = Ret v -> is_object v.
Proof.
  intros Hv. destruct data as [ | b | z | r | str | items | d ];
    try (unfold Tools.get_weather, Tools.tbind, Tools.tlift in Hv;
         simpl in Hv; discriminate Hv).
  pose proof (get_weather_run svc lib d h) as H. cbv zeta in H.
  destruct (Tools.get_weather svc lib (JObj d) h) as [[v' | e] h'];
    simpl in Hv; [|discriminate Hv].
  injection Hv as ->.
  destruct H as [[_ [-> _]] | [_ [g [hg [_ H]]]]]; [eexists; reflexivity|].
  destruct H as [[Hf [-> _]] | [dn [lat [lon [_ [_ [Hf | Hr]]]]]]].
  - exact (failure_object _ Hf).
  - exact (failure_object _ Hf).
  - destruct Hr as [t [de [hu [sp ->]]]]. eexists. reflexivity.
Qed.

Lemma places_ret (svc : Tools.Services) (lib : PyLib) (data : json)
    (h : list Tools.request) (v : json) :
  fst (Tools.search_places svc lib data h) = Ret v ->
  failure v \/ places_payload v.
Proof.
  intros Hv. destruct data as [ | b | z | r | str | items | d ];
    try (unfold Tools.search_places, Tools.tbind, Tools.tlift in Hv;
         simpl in Hv; discriminate Hv).
  pose proof (search_places_run svc lib d h) as H. cbv zeta in H.
  destruct (Tools.search_places svc lib (JObj d) h) as [[v' | e] h'];
    simpl in Hv; [|discriminate Hv].
  injection Hv as ->.
  destruct H as [[_ [-> _]] | [[_ [_ [_ [-> _]]]] | [_ [_ [_ H]]]]].
  - left. eexists. reflexivity.
  - left. eexists. reflexivity.
  - destruct H as [g [hg [_ [[Hf [-> _]] | [dn [lat [lon [_ [_ H]]]]]]]]].
    + left. exact Hf.
    + exact H.
Qed.

Lemma translate_object (svc : Tools.Services) (lib : PyLib) (data : json)
    (h : list Tools.request) (v : json) :
  fst (Tools.translate_text svc lib data h) = Ret v -> is_object v.
Proof.
  intros Hv. destruct data as [ | b | z | r | str | items | d ];
    try (unfold Tools.translate_text, Tools.tbind, Tools.tlift in Hv;
         simpl in Hv; discriminate Hv).
  pose proof (translate_text_run svc lib d h) as H. cbv zeta in H.
  destruct (Tools.translate_text svc lib (JObj d) h) as [[v' | e] h'];
    simpl in Hv; [|discriminate Hv].
  injection Hv as ->.
  destruct H as [[_ [-> _]] | [_ [_ [_ [Hf | [t ->]]]]]].
  - eexists. reflexivity.
  - exact (failure_object _ Hf).
  - eexists. reflexivity.
Qed.

(** What a view function answers is what [jsonify] makes of the result of
    its tool. *)
Lemma view_run (tool : json -> Tools.T json) (rq : outcome json)
    (h : list Tools.request) (v : json) :
  fst (Tools.tbind (Tools.tbind (Tools.tlift rq) tool)
         (fun v => Tools.tret (jsonify v)) h) = Ret v ->
  exists data v', rq = Ret data /\ fst (tool data h) = Ret v' /\
                  v = sort_keys v'.
Proof.
  unfold Tools.tbind, Tools.tlift, Tools.tret, jsonify.
  destruct rq as [data | e]; [|discriminate].
  destruct (tool data h) as [[v' | e] h'] eqn:E; simpl; [|discriminate].
  intros H. injection H as <-. exists data, v'. rewrite E.
  repeat split; reflexivity.
Qed.

Lemma sort_keys_object (v : json) : is_object v -> is_object (sort_keys v).
Proof. intros [d ->]. simpl. eexists. reflexivity. Qed.

Lemma endpoint_object (svc : Tools.Services) (lib : PyLib) (f : tool_fn)
    (rq : outcome json) (h : list Tools.request) (v : json) :
  fst (endpoint svc lib f rq h) = Ret v -> is_object v.
Proof.
  destruct f; simpl endpoint;
    unfold tool_geocode, tool_weather, tool_places, tool_translate;
    intros Hv; destruct (view_run _ rq h v Hv) as [data [v' [_ [Hv' ->]]]];
    apply sort_keys_object.
  - exact (geocode_object svc lib data h v' Hv').
  - exact (weather_object svc lib data h v' Hv').
  - destruct (places_ret svc lib data h v' Hv') as [Hf | [cleaned [-> _]]].
    + exact (failure_object _ Hf).
    + eexists. reflexivity.
  - exact (translate_object svc lib data h v' Hv').
Qed.

Lemma sort_keys_entity (c : json) :
  cleaned_entity c -> received_entity (sort_keys c).
Proof.
  intros [n [rating [address [phone [url ->]]]]].
  exists (sort_keys n), (sort_keys rating), address, (sort_keys phone),
         (sort_keys url).
  reflexivity.
Qed.

Lemma received_named (l : list json) :
  Forall received_entity l -> exists names, Forall2 named l names.
Proof.
  induction 1 as [|c l [n [r [a [ph [u ->]]]]] _ [names IH]].
  - exists []. constructor.
  - exists (n :: names). constructor; [|exact IH].
    eexists. split; reflexivity.
Qed.

Lemma places_view (svc : Tools.Services) (lib : PyLib) (rq : outcome json)
    (h : list Tools.request) (d : dict) :
  fst (tool_places svc lib rq h) = Ret (JObj d) ->
  dict_get "error" d = None ->
  exists entities,
    d = [("results", JArr entities)] /\ Forall received_entity entities.
Proof.
  unfold tool_places. intros Hv Herr.
  destruct (view_run _ rq h _ Hv) as [data [v' [_ [Hv' E]]]].
  destruct (places_ret svc lib data h v' Hv')
    as [[msg ->] | [cleaned [-> Hcleaned]]].
  - simpl in E. injection E as ->. discriminate Herr.
  - simpl in E. injection E as ->.
    exists (map sort_keys cleaned). split; [reflexivity|].
    apply Forall_map. revert Hcleaned. apply Forall_impl.
    exact sort_keys_entity.
Qed.

Lemma deployment_result (svc : Tools.Services) (slib : PyLib)
    (base : string) (not_json : exn) (history : trace -> list Tools.request)
    (model : trace -> list ToolSpec -> string -> outcome model_response)
    (lib : PyLib) (tr : trace) (tool_name : string) (body : json) :
  tool_result (deployment svc slib base not_json history model) lib tr
    tool_name body =
  match tool_route ("/tool/" ++ tool_name) with
  | Some f =>
      match fst (endpoint svc slib f (posted_json body) (history tr)) with
      | Ret v => v
      | Raise _ => error_dict (str_exn lib not_json)
      end
  | None => error_dict (str_exn lib not_json)
  end.
Proof.
  unfold tool_result, tool_url.
  cbn [deployment requests_post MCP_SERVER_URL]. unfold served.
  rewrite drop_prefix_app.
  destruct (tool_route ("/tool/" ++ tool_name)) as [f|]; [|reflexivity].
  destruct (fst (endpoint svc slib f (posted_json body) (history tr)));
    reflexivity.
Qed.

Lemma deployment_places (svc : Tools.Services) (slib : PyLib)
    (base : string) (not_json : exn) (history : trace -> list Tools.request)
    (model : trace -> list ToolSpec -> string -> outcome model_response)
    (lib : PyLib) (tr : trace) (body : json) (d : dict) :
  tool_result (deployment svc slib base not_json history model) lib tr
    "search_places" body = JObj d ->
  dict_get "error" d = None ->
  exists entities,
    d = [("results", JArr entities)] /\ Forall received_entity entities.
Proof.
  rewrite deployment_result.
  change (tool_route ("/tool/" ++ "search_places")) with (Some search_places).
  cbv beta iota. simpl endpoint.
  destruct (fst (tool_places svc slib (posted_json body) (history tr)))
    as [v | e] eqn:Hv.
  - intros -> Herr. exact (places_view svc slib _ _ d Hv Herr).
  - intros Hd Herr. injection Hd as <-. discriminate Herr.
Qed.

Lemma deployment_interface (svc : Tools.Services) (slib : PyLib)
    (base : string) (not_json : exn) (history : trace -> list Tools.request)
    (model : trace -> list ToolSpec -> string -> outcome model_response)
    (lib : PyLib) :
  keeps_interface (deployment svc slib base not_json history model) lib.
Proof.
  split.
  - intros tr tool_name body. rewrite deployment_result.
    destruct (tool_route ("/tool/" ++ tool_name)) as [f|];
      [|eexists; reflexivity].
    destruct (fst (endpoint svc slib f (posted_json body) (history tr)))
      as [v | e] eqn:Hv; [|eexists; reflexivity].
    exact (endpoint_object svc slib f _ _ v Hv).
  - intros tr body d Hd Herr.
    destruct (deployment_places svc slib base not_json history model lib
                tr body d Hd Herr) as [entities [-> Hent]].
    destruct (received_named _ (Forall_first _ _ 3 _ Hent)) as [names Hnames].
    exists entities, names. split; [reflexivity | exact Hnames].
Qed.

(** X22.  With the server of [server.py] as its peer, [call_tool] hands
    back a mapping for every tool name made of letters, digits and
    underscores, routed or not, and every argument document; and what it
    hands back for ["search_places"], when not a failure, is
    [{"results": [...]}] with the entities [search_places] built, their
    keys in the order [jsonify] wrote them ([address], [name], [phone],
    [rating], [url]), each with its [name]. *)
Theorem own_server_keeps_interface :
  forall (svc : Tools.Services) (slib : PyLib) (base : string)
         (not_json : exn) (history : trace -> list Tools.request)
         (model : trace -> list ToolSpec -> string -> outcome model_response)
         (lib : PyLib) (tool_name : string) (arguments : json) (s : state),
    plain_name tool_name = true ->
    exists d,
      fst (call_tool (deployment svc slib base not_json history model) lib
             tool_name arguments s) = Ret (JObj d) /\
      (tool_name = "search_places" ->
       dict_get "error" d = None ->
       exists entities names,
         d = [("results", JArr entities)] /\
         Forall received_entity entities /\
         Forall2 named entities names).
Proof.
  intros svc slib base not_json history model lib tool_name arguments s _.
  destruct (deployment_interface svc slib base not_json history model lib)
    as [Hobj _].
  rewrite call_tool_run. simpl fst.
  destruct (Hobj (calls s) tool_name arguments) as [d Hd].
  exists d. split; [rewrite Hd; reflexivity|].
  intros -> Herr.
  destruct (deployment_places svc slib base not_json history model lib
              (calls s) arguments d Hd Herr) as [entities [E Hent]].
  destruct (received_named entities Hent) as [names Hnames].
  exists entities, names. repeat split; assumption.
Qed.

Lemma own_server_keeps_interface_witness :
  fst (call_tool DemoTools.own_server Demo.lib "search_places"
         (JObj [("query", JStr "coffee"); ("location", JStr "Portland")])
         Demo.fresh) =
    Ret (JObj
           [("results",
             JArr [JObj [("address", JStr "1 Main St Portland");
                         ("name", JStr "Case Study Coffee");
                         ("phone", JNull); ("rating", JFloat "4.5");
                         ("url", JStr "https://yelp.example/biz")];
                   JObj [("address", JStr "1 Main St Portland");
                         ("name", JStr "Heart Coffee");
                         ("phone", JNull); ("rating", JFloat "4.5");
                         ("url", JStr "https://yelp.example/biz")]])]) /\
  exists d,
    fst (call_tool DemoTools.own_server Demo.lib "search_places"
           (JObj [("query", JStr "coffee"); ("location", JStr "Portland")])
           Demo.fresh) = Ret (JObj d) /\
    ("search_places" = "search_places" ->
     dict_get "error" d = None ->
     exists entities names,
       d = [("results", JArr entities)] /\
       Forall received_entity entities /\
       Forall2 named entities names).
Proof.
  split; [reflexivity|].
  exact (own_server_keeps_interface DemoTools.services DemoTools.lib
           Demo.base (ExternalError Demo.decode_error) (fun _ => [])
           Demo.model Demo.lib "search_places"
           (JObj [("query", JStr "coffee"); ("location", JStr "Portland")])
           Demo.fresh eq_refl).
Defined.

(** ** More on [search_places] and on the chaining *)

Lemma comprehension_length {A B} (f : A -> outcome B) (l : list A) :
  forall ys, comprehension f l = Ret ys -> length ys = length l.
Proof.
  induction l as [|x l IH]; simpl; intros ys H.
  - injection H as <-. reflexivity.
  - destruct (f x) as [y | e]; [|discriminate H].
    destruct (comprehension f l) as [ys' | e]; [|discriminate H].
    injection H as <-. simpl. rewrite (IH ys' eq_refl). reflexivity.
Qed.

Lemma search_places_businesses (svc : Tools.Services) (lib : PyLib) (d : dict)
    (h hg : list Tools.request) (display_name lat lon : json)
    (response : Tools.reply) (r : dict) (bs : list json) :
  py_truthy (Tools.get_or_none "query" d) = true ->
  py_truthy (Tools.get_or_none "location" d) = true ->
  Tools.env_truthy (Tools.YELP_API_KEY svc) = true ->
  Tools.geocode_location svc lib
    (location_arg (Tools.get_or_none "location" d)) h =
    (Ret (JObj [("display_name", display_name); ("lat", lat); ("lon", lon)]),
     hg) ->
  Tools.requests_get svc hg Tools.YELP_URL
    [("Authorization",
      ("Bearer " ++ Tools.env_str (Tools.YELP_API_KEY svc))%string)]
    [("term", Tools.get_or_none "query" d); ("latitude", lat);
     ("longitude", lon); ("limit", JInt 5)] = Ret response ->
  Tools.raise_for_status response = Ret tt ->
  Tools.reply_json response = Ret (JObj r) ->
  dict_get "businesses" r = Some (JArr bs) ->
  fst (Tools.search_places svc lib (JObj d) h) =
  match comprehension Tools.clean_business bs with
  | Ret cleaned => Ret (JObj [("results", JArr cleaned)])
  | Raise e => Ret (error_dict (str_exn lib e))
  end.
Proof.
  intros Hq Hl Hk Hg Hget Hstatus Hjson Hbs.
  unfold Tools.search_places.
  unfold Tools.tbind at 1, Tools.tlift at 1. rewrite py_get_obj.
  unfold Tools.tbind at 1, Tools.tlift at 1. rewrite py_get_obj.
  rewrite Hq, Hl, Hk. cbn [negb orb].
  unfold Tools.tbind at 1. fold (location_arg (Tools.get_or_none "location" d)).
  rewrite Hg.
  unfold Tools.tbind at 1, Tools.tlift at 1. cbn [py_in].
  change (dict_has "error"
            [("display_name", display_name); ("lat", lat); ("lon", lon)])
    with false. cbv beta iota.
  unfold Tools.tbind at 1, Tools.tlift at 1.
  change (py_getitem
            (JObj [("display_name", display_name); ("lat", lat); ("lon", lon)])
            "lat") with (Ret lat). cbv beta iota.
  unfold Tools.tbind at 1, Tools.tlift at 1.
  change (py_getitem
            (JObj [("display_name", display_name); ("lat", lat); ("lon", lon)])
            "lon") with (Ret lon). cbv beta iota.
  unfold Tools.ttry, Tools.tbind, Tools.tlift, Tools.tret, Tools.do_get.
  rewrite Hget. cbv beta iota. rewrite Hstatus. cbv beta iota.
  rewrite Hjson. cbn [py_get]. rewrite Hbs. cbn [py_iter]. cbv beta iota.
  destruct (comprehension Tools.clean_business bs); reflexivity.
Qed.

(** X23.  [search_places] asks Yelp for five businesses but cuts nothing
    itself: when every business Yelp returns can be cleaned, the result has
    one entry per business, as many as Yelp sent.  And it keeps all or
    nothing: one business that cannot be cleaned (it lacks a field, say)
    turns the whole answer into the failure that carries the exception, the
    businesses before it included. *)
Theorem search_places_all_or_nothing :
  forall (svc : Tools.Services) (lib : PyLib) (d : dict)
         (h hg : list Tools.request) (display_name lat lon : json)
         (response : Tools.reply) (r : dict) (bs : list json),
    py_truthy (Tools.get_or_none "query" d) = true ->
    py_truthy (Tools.get_or_none "location" d) = true ->
    Tools.env_truthy (Tools.YELP_API_KEY svc) = true ->
    Tools.geocode_location svc lib
      (location_arg (Tools.get_or_none "location" d)) h =
      (Ret (JObj [("display_name", display_name); ("lat", lat); ("lon", lon)]),
       hg) ->
    Tools.requests_get svc hg Tools.YELP_URL
      [("Authorization",
        ("Bearer " ++ Tools.env_str (Tools.YELP_API_KEY svc))%string)]
      [("term", Tools.get_or_none "query" d); ("latitude", lat);
       ("longitude", lon); ("limit", JInt 5)] = Ret response ->
    Tools.raise_for_status response = Ret tt ->
    Tools.reply_json response = Ret (JObj r) ->
    dict_get "businesses" r = Some (JArr bs) ->
    (forall cleaned,
        comprehension Tools.clean_business bs = Ret cleaned ->
        fst (Tools.search_places svc lib (JObj d) h) =
          Ret (JObj [("results", JArr cleaned)]) /\
        length cleaned = length bs) /\
    (forall good ys bad rest e,
        bs = good ++ bad :: rest ->
        comprehension Tools.clean_business good = Ret ys ->
        Tools.clean_business bad = Raise e ->
        fst (Tools.search_places svc lib (JObj d) h) =
          Ret (error_dict (str_exn lib e))).
Proof.
  intros svc lib d h hg dn lat lon response r bs
         Hq Hl Hk Hg Hget Hstatus Hjson Hbs.
  pose proof (search_places_businesses svc lib d h hg dn lat lon response r bs
                Hq Hl Hk Hg Hget Hstatus Hjson Hbs) as Hrun.
  split.
  - intros cleaned Hc. rewrite Hrun, Hc.
    split; [reflexivity | exact (comprehension_length _ _ _ Hc)].
  - intros good ys bad rest e -> Hgood Hbad.
    rewrite Hrun.
    rewrite (comprehension_stops Tools.clean_business good ys bad rest e
               Hgood Hbad).
    reflexivity.
Qed.

Lemma search_places_all_or_nothing_witness :
  fst (Tools.search_places DemoTools.services DemoTools.lib
         (JObj [("query", JStr "coffee"); ("location", JStr "Portland")]) []) =
    Ret (JObj [("results",
                JArr [JObj [("name", JStr "Case Study Coffee");
                            ("rating", JFloat "4.5");
                            ("address", JStr "1 Main St Portland");
                            ("phone", JNull);
                            ("url", JStr "https://yelp.example/biz")];
                      JObj [("name", JStr "Heart Coffee");
                            ("rating", JFloat "4.5");
                            ("address", JStr "1 Main St Portland");
                            ("phone", JNull);
                            ("url", JStr "https://yelp.example/biz")]])]).
Proof.
  refine (proj1 (proj1
    (search_places_all_or_nothing DemoTools.services DemoTools.lib
       [("query", JStr "coffee"); ("location", JStr "Portland")] []
       [Tools.Get
          "https://nominatim.openstreetmap.org/search?q=Portland&format=json&limit=1"
          [("User-Agent", "SmartCityAgent")] []]
       (JStr "Portland, Oregon") (JStr "45.52") (JStr "-122.67")
       (Tools.mkReply (Ret tt)
          (Ret (JObj [("businesses",
                       JArr [DemoTools.business "Case Study Coffee";
                             DemoTools.business "Heart Coffee"])])))
       [("businesses",
         JArr [DemoTools.business "Case Study Coffee";
               DemoTools.business "Heart Coffee"])]
       [DemoTools.business "Case Study Coffee";
        DemoTools.business "Heart Coffee"]
       eq_refl eq_refl eq_refl eq_refl eq_refl eq_refl eq_refl eq_refl)
    _ eq_refl)).
Defined.

Lemma lower_ascii_idem (c : ascii) : lower_ascii (lower_ascii c) = lower_ascii c.
Proof.
  destruct c as [[] [] [] [] [] [] [] []]; reflexivity.
Qed.

Lemma py_lower_idem (s : string) : py_lower (py_lower s) = py_lower s.
Proof.
  induction s as [|c s IH]; simpl; [reflexivity|].
  rewrite lower_ascii_idem, IH. reflexivity.
Qed.

(** X24.  The chaining reads the query only through its lower-cased form:
    typing the query in capitals changes neither whether the chaining fires
    nor the target language it extracts, nor anything the chaining does. *)
Theorem chaining_ignores_case :
  forall (w : World) (lib : PyLib) (q : string) (all_results : dict)
         (s : state),
    chain_trigger (py_lower q) all_results = chain_trigger q all_results /\
    target_lang (py_lower q) = target_lang q /\
    chain w lib (py_lower q) all_results s = chain w lib q all_results s.
Proof.
  intros w lib q all_results s.
  assert (Ht : target_lang (py_lower q) = target_lang q).
  { unfold target_lang, detect_target_lang. rewrite py_lower_idem. reflexivity. }
  split; [|split].
  - unfold chain_trigger. rewrite py_lower_idem. reflexivity.
  - exact Ht.
  - unfold chain. rewrite Ht. reflexivity.
Qed.
